(** * unit_converter.py: conversion engine, session history, favorites, catalog search

    A shallow embedding of [units-convertor/unit_converter.py].

    - Python numbers are [bool], [int] (unbounded, [Z]) and [float]
      (IEEE binary64, Rocq's primitive floats).  The float arithmetic is a
      type class, so that the same embedded code also runs over exact
      rationals ([Qc]) when a statement is about the formulas rather than
      their rounding.
    - [st.error(msg); return None] is the outcome [Rejected msg].
    - [st.session_state] is a record whose optional fields are the keys the
      program creates on first use.
    - [pint], [str.lower] and [str.title] are not code of this program:
      they are parameters of the sections that use them.
    - The Convert button, the formula it displays and the favorites card
      of [main] are embedded as functions on the session; the real numbers
      ([R]) are a third arithmetic, the one float results are measured
      against. *)

From Stdlib Require Import ZArith QArith Qcanon Floats String Ascii List Lia.
From Stdlib Require Import Reals Lra Psatz.
From stdpp Require Import base option list strings gmap.

Local Open Scope string_scope.
Local Open Scope Z_scope.
#[local] Set Warnings "-inexact-float".

(** ** Python exceptions raised by arithmetic *)

Inductive pyexc : Type :=
  | OverflowError (msg : string)
  | ZeroDivisionError (msg : string).

(** [str(e)] *)
Definition str_exc (e : pyexc) : string :=
  match e with
  | OverflowError msg => msg
  | ZeroDivisionError msg => msg
  end.

Definition exc (A : Type) : Type := pyexc + A.

Definition raise {A : Type} (e : pyexc) : exc A := inl e.

#[global] Instance exc_ret : MRet exc := fun A x => inr x.
#[global] Instance exc_bind : MBind exc := fun A B f m =>
  match m with
  | inl e => inl e
  | inr x => f x
  end.

(** ** Float arithmetic as an interface *)

Class PyFloatOps (F : Type) : Type := {
  (** the value of a float literal written in decimal *)
  literal : Q -> F;
  fadd : F -> F -> F;
  fsub : F -> F -> F;
  fmul : F -> F -> F;
  fdiv : F -> F -> F;
  fis_zero : F -> bool;
  (** [float(n)] for an int [n]; OverflowError when it does not fit *)
  of_int : Z -> exc F;
  (** [a / b] for ints [a], [b]: the quotient rounded once *)
  int_truediv : Z -> Z -> exc F
}.

(** *** binary64 *)

Module Binary64.

(** [n / d] (with [0 <= n], [0 < d]) rounded to the nearest binary64,
    ties to even: a quotient of at least 56 bits plus a sticky bit is
    handed to the library's rounding. *)
Definition round_ratio (neg : bool) (n d : Z) : float :=
  let s := Z.max 0 (Z.log2 d + 56 - Z.log2 n) in
  let q := (n * 2 ^ s) / d in
  let r := (n * 2 ^ s) mod d in
  let m := 2 * q + (if r =? 0 then 0 else 1) in
  SF2Prim (binary_normalize prec emax (if neg then - m else m) (- (s + 1)) neg).

Definition literal (q : Q) : float :=
  round_ratio (Qnum q <? 0) (Z.abs (Qnum q)) (Zpos (Qden q)).

Definition of_int (z : Z) : exc float :=
  let f := SF2Prim (binary_normalize prec emax z 0 false) in
  if is_infinity f
  then raise (OverflowError "int too large to convert to float")
  else mret f.

Definition int_truediv (a b : Z) : exc float :=
  if b =? 0 then raise (ZeroDivisionError "division by zero")
  else
    let f := round_ratio (xorb (a <? 0) (b <? 0)) (Z.abs a) (Z.abs b) in
    if is_infinity f
    then raise (OverflowError "integer division result too large for a float")
    else mret f.

End Binary64.

#[global] Instance binary64_ops : PyFloatOps float := {|
  literal := Binary64.literal;
  fadd := PrimFloat.add;
  fsub := PrimFloat.sub;
  fmul := PrimFloat.mul;
  fdiv := PrimFloat.div;
  fis_zero := fun x => PrimFloat.eqb x 0%float;
  of_int := Binary64.of_int;
  int_truediv := Binary64.int_truediv
|}.

(** *** exact rationals *)

Module Exact.

Definition of_int (z : Z) : exc Qc := mret (Q2Qc (inject_Z z)).

Definition int_truediv (a b : Z) : exc Qc :=
  if b =? 0 then raise (ZeroDivisionError "division by zero")
  else mret (Q2Qc (inject_Z a) / Q2Qc (inject_Z b))%Qc.

End Exact.

#[global] Instance exact_ops : PyFloatOps Qc := {|
  literal := Q2Qc;
  fadd := Qcplus;
  fsub := Qcminus;
  fmul := Qcmult;
  fdiv := Qcdiv;
  fis_zero := fun x => Qeq_bool (this x) 0;
  of_int := Exact.of_int;
  int_truediv := Exact.int_truediv
|}.

(** ** Python values *)

Section Values.
Context {F : Type} `{PyFloatOps F}.

(** instances of [int] or [float]; [bool] is a subclass of [int] *)
Inductive pynum : Type :=
  | PyBool (b : bool)
  | PyInt (z : Z)
  | PyFloat (f : F).

Inductive pyval : Type :=
  | Num (n : pynum)
  | PyStr (s : string)
  | PyNone.

Definition as_int (n : pynum) : option Z :=
  match n with
  | PyBool b => Some (Z.b2z b)
  | PyInt z => Some z
  | PyFloat _ => None
  end.

Definition to_float (n : pynum) : exc F :=
  match n with
  | PyBool b => of_int (Z.b2z b)
  | PyInt z => of_int z
  | PyFloat f => mret f
  end.

(** int with int stays in the ints; anything else is done in floats,
    converting the left operand first *)
Definition binop (iop : Z -> Z -> exc pynum) (fop : F -> F -> exc F)
    (a b : pynum) : exc pynum :=
  match as_int a, as_int b with
  | Some x, Some y => iop x y
  | _, _ => x ← to_float a; y ← to_float b; r ← fop x y; mret (PyFloat r)
  end.

Definition py_add : pynum -> pynum -> exc pynum :=
  binop (fun x y => mret (PyInt (x + y))) (fun x y => mret (fadd x y)).

Definition py_sub : pynum -> pynum -> exc pynum :=
  binop (fun x y => mret (PyInt (x - y))) (fun x y => mret (fsub x y)).

Definition py_mul : pynum -> pynum -> exc pynum :=
  binop (fun x y => mret (PyInt (x * y))) (fun x y => mret (fmul x y)).

Definition py_truediv : pynum -> pynum -> exc pynum :=
  binop (fun x y => r ← int_truediv x y; mret (PyFloat r))
        (fun x y => if fis_zero y
                    then raise (ZeroDivisionError "float division by zero")
                    else mret (fdiv x y)).

(** [isinstance(value, (int, float))] *)
Definition is_number (v : pyval) : bool :=
  match v with
  | Num _ => true
  | _ => false
  end.

End Values.

Arguments pynum F : clear implicits.
Arguments pyval F : clear implicits.

(** Expressions: operands are evaluated left to right, then the operator
    is applied; any of the three steps may raise. *)
Definition lift2 {F : Type} (op : pynum F -> pynum F -> exc (pynum F))
    (a b : exc (pynum F)) : exc (pynum F) :=
  x ← a; y ← b; op x y.

Declare Scope py_scope.
Delimit Scope py_scope with py.
Notation "a + b" := (lift2 py_add a b) : py_scope.
Notation "a - b" := (lift2 py_sub a b) : py_scope.
Notation "a * b" := (lift2 py_mul a b) : py_scope.
Notation "a / b" := (lift2 py_truediv a b) : py_scope.

(** a variable, a float literal, an int literal *)
Definition var {F : Type} (n : pynum F) : exc (pynum F) := mret n.
Definition flt {F : Type} `{PyFloatOps F} (q : Q) : exc (pynum F) :=
  mret (PyFloat (literal q)).
Definition int {F : Type} (z : Z) : exc (pynum F) := mret (PyInt z).

(** [x in xs] for a list of strings *)
Definition str_in (x : string) (xs : list string) : bool :=
  existsb (String.eqb x) xs.

(** ** The conversion engine *)

(** What a call of [convert_units] does: it returns a number, or it reports
    [msg] with [st.error] and returns [None]. *)
Inductive outcome (F : Type) : Type :=
  | Returned (r : pynum F)
  | Rejected (msg : string).

Arguments Returned {F} r.
Arguments Rejected {F} msg.

Section Engine.
Context {F : Type} `{PyFloatOps F}.

(** [float((value * ureg(from_unit)).to(to_unit).magnitude)] as pint
    computes it; [None] when any step of it raises. *)
Variable pint_convert : pynum F -> string -> string -> option F.

Definition convert_units (value : pyval F) (from_unit to_unit : string)
    : outcome F :=
  match value with
  | Num value =>
    if str_in from_unit ["celsius"; "fahrenheit"; "kelvin"; "rankine"] then
      let body : exc (pynum F) :=
        kelvin ←
          (if (from_unit =? "celsius")%string then
             var value + flt 273.15
           else if (from_unit =? "fahrenheit")%string then
             (var value + flt 459.67) * int 5 / int 9
           else if (from_unit =? "rankine")%string then
             var value * int 5 / int 9
           else
             var value)%py;
        (if (to_unit =? "celsius")%string then
           var kelvin - flt 273.15
         else if (to_unit =? "fahrenheit")%string then
           var kelvin * int 9 / int 5 - flt 459.67
         else if (to_unit =? "rankine")%string then
           var kelvin * int 9 / int 5
         else
           var kelvin)%py in
      match body with
      | inr r => Returned r
      | inl e => Rejected ("Conversion Error: " +:+ str_exc e)
      end
    else
      match pint_convert value from_unit to_unit with
      | Some magnitude => Returned (PyFloat magnitude)
      | None =>
        Rejected ("Invalid unit combination: " +:+ from_unit +:+ " to " +:+ to_unit)
      end
  | _ => Rejected "Please enter a valid number"
  end.

End Engine.

(** ** Session history and favorites *)

Section Session.
Context {F : Type}.

(** the dict built by [save_conversion_history] *)
Record history_item : Type := {
  timestamp : string;
  value : pynum F;
  from_unit : string;
  to_unit : string;
  result : pynum F
}.

(** The keys of [st.session_state] that the tracker owns; [None] is a key
    that has not been created yet. *)
Record session_state : Type := {
  conversion_history : option (list history_item);
  favorites : option (gset string)
}.

(** a session that has just started *)
Definition new_session : session_state :=
  {| conversion_history := None; favorites := None |}.

(** [now] is the text of [datetime.now().strftime("%Y-%m-%d %H:%M:%S")]
    when the call is made. *)
Definition save_conversion_history (now : string) (value : pynum F)
    (from_unit to_unit : string) (result : pynum F) (st : session_state)
    : session_state :=
  let history :=
    match conversion_history st with
    | None => []
    | Some history => history
    end in
  let history_item :=
    {| timestamp := now; value := value; from_unit := from_unit;
       to_unit := to_unit; result := result |} in
  (* insert(0, history_item) *)
  let history := history_item :: history in
  (* pop() drops the last element *)
  let history :=
    if (10 <? length history)%nat then removelast history else history in
  {| conversion_history := Some history; favorites := favorites st |}.

Definition toggle_favorite (from_unit to_unit : string) (st : session_state)
    : session_state :=
  let favs : gset string :=
    match favorites st with
    | None => ∅
    | Some favs => favs
    end in
  let conversion_pair := from_unit +:+ "->" +:+ to_unit in
  let favs :=
    if bool_decide (conversion_pair ∈ favs)
    then favs ∖ {[conversion_pair]}      (* remove *)
    else favs ∪ {[conversion_pair]} in   (* add *)
  {| conversion_history := conversion_history st; favorites := Some favs |}.

(** What the page reads back: [st.session_state.get('favorites', set())]
    and the history list, empty while the key is missing. *)
Definition favorites_of (st : session_state) : gset string :=
  default ∅ (favorites st).

Definition history_of (st : session_state) : list history_item :=
  default [] (conversion_history st).

(** One user action on the tracker, and the sessions that actions can
    lead to. *)
Inductive action : Type :=
  | Save (now : string) (value : pynum F) (from_unit to_unit : string)
         (result : pynum F)
  | Toggle (from_unit to_unit : string).

Definition run (a : action) (st : session_state) : session_state :=
  match a with
  | Save now value from_unit to_unit result =>
      save_conversion_history now value from_unit to_unit result st
  | Toggle from_unit to_unit => toggle_favorite from_unit to_unit st
  end.

(** actions are run in order, the head of the list first *)
Definition run_all (acts : list action) (st : session_state) : session_state :=
  fold_left (fun st a => run a st) acts st.

Definition reachable (st : session_state) : Prop :=
  exists acts, st = run_all acts new_session.

End Session.

Arguments history_item F : clear implicits.
Arguments session_state F : clear implicits.
Arguments action F : clear implicits.

(** ** The unit catalog and its search *)

(** Strings are UTF-8 bytes.  A text is a substring of another exactly when
    its encoding is a substring of the other's encoding, so [in] on [str]
    is the byte-level test below. *)
Fixpoint starts_with (prefix s : string) : bool :=
  match prefix, s with
  | EmptyString, _ => true
  | String a prefix', String b s' => Ascii.eqb a b && starts_with prefix' s'
  | String _ _, EmptyString => false
  end.

(** [sub in s] *)
Fixpoint contains (sub s : string) : bool :=
  starts_with sub s ||
  match s with
  | EmptyString => false
  | String _ s' => contains sub s'
  end.

(** the dict literal, in the order it is written *)
Definition CATEGORIES : list (string * list string) := [
  ("📏 Length", ["meters"; "kilometers"; "miles"; "feet"; "inches"; "centimeters"; "yards"; "nautical_miles"]);
  ("⚖️ Weight", ["kilograms"; "grams"; "pounds"; "ounces"; "tons"; "milligrams"]);
  ("🌡️ Temperature", ["celsius"; "fahrenheit"; "kelvin"; "rankine"]);
  ("⏰ Time", ["seconds"; "minutes"; "hours"; "days"; "weeks"; "months"; "years"]);
  ("🧊 Volume", ["liters"; "milliliters"; "gallons"; "cubic_meters"; "cups"; "tablespoons"; "teaspoons"]);
  ("🚀 Speed", ["meters_per_second"; "kilometers_per_hour"; "miles_per_hour"; "knots"]);
  ("💾 Data", ["bytes"; "kilobytes"; "megabytes"; "gigabytes"; "terabytes"; "petabytes"]);
  ("📡 Frequency", ["hertz"; "kilohertz"; "megahertz"; "gigahertz"; "terahertz"]);
  ("🔋 Energy", ["joules"; "kilojoules"; "calories"; "kilocalories"; "watt_hours"; "electron_volts"]);
  ("⚡ Power", ["watts"; "kilowatts"; "megawatts"; "horsepower"; "btu_per_hour"]);
  ("📐 Area", ["square_meters"; "square_kilometers"; "acres"; "hectares"; "square_feet"; "square_yards"; "square_miles"]);
  ("🔩 Pressure", ["pascals"; "bar"; "atmospheres"; "psi"; "torr"; "millibars"]);
  ("🎛️ Electrical", ["volts"; "amperes"; "ohms"; "farads"; "henries"; "siemens"]);
  ("🌀 Torque", ["newton_meters"; "pound_feet"; "kilogram_force_meters"]);
  ("📉 Density", ["kilograms_per_cubic_meter"; "grams_per_cubic_centimeter"; "pounds_per_cubic_foot"]);
  ("💨 Airflow", ["cubic_meters_per_second"; "cubic_feet_per_minute"; "liters_per_minute"]);
  ("💰 Currency", ["USD"; "EUR"; "GBP"; "JPY"; "AUD"; "CAD"; "CHF"; "CNY"])
].

Section Search.
(** [str.lower] *)
Variable lower : string -> string.

(** The dict comprehension of [main]; [text] is what the search box holds. *)
Definition filtered_categories (text : string) : list (string * list string) :=
  let search_query := lower text in
  List.filter (fun '(k, v) =>
            contains search_query (lower k)
            || existsb (fun unit => contains search_query (lower unit)) v)
         CATEGORIES.

(** What [main] shows for the search: a warning when nothing is left,
    else the category selector over the remaining keys. *)
Inductive search_view : Type :=
  | Warning (msg : string)
  | SelectCategory (options : list string).

Definition search_units (text : string) : search_view :=
  match filtered_categories text with
  | [] => Warning "No units found matching your search."
  | kept => SelectCategory (map fst kept)
  end.

End Search.

(** ** The formulas of the specification *)

Section Formulas.
Context {F : Type} `{PyFloatOps F}.

(** "Normalize value from fromUnit to kelvin": celsius [k = c + 273.15],
    fahrenheit [k = (f + 459.67) × 5/9], rankine [k = r × 5/9], kelvin
    the identity.  No formula is given for any other unit. *)
Definition spec_normalize (from_unit : string) (v : F) : option F :=
  if (from_unit =? "celsius")%string then
    Some (fadd v (literal 273.15))
  else if (from_unit =? "fahrenheit")%string then
    Some (fdiv (fmul (fadd v (literal 459.67)) (literal 5)) (literal 9))
  else if (from_unit =? "rankine")%string then
    Some (fdiv (fmul v (literal 5)) (literal 9))
  else if (from_unit =? "kelvin")%string then
    Some v
  else None.

(** "Convert kelvin to toUnit": celsius [c = k − 273.15], fahrenheit
    [f = k × 9/5 − 459.67], rankine [r = k × 9/5], kelvin the identity. *)
Definition spec_denormalize (to_unit : string) (k : F) : option F :=
  if (to_unit =? "celsius")%string then
    Some (fsub k (literal 273.15))
  else if (to_unit =? "fahrenheit")%string then
    Some (fsub (fdiv (fmul k (literal 9)) (literal 5)) (literal 459.67))
  else if (to_unit =? "rankine")%string then
    Some (fdiv (fmul k (literal 9)) (literal 5))
  else if (to_unit =? "kelvin")%string then
    Some k
  else None.

(** normalize, then denormalize *)
Definition spec_convert (from_unit to_unit : string) (v : F) : option F :=
  k ← spec_normalize from_unit v; spec_denormalize to_unit k.

End Formulas.

(** What the formulas take for granted about the arithmetic: the int
    constants 5 and 9 convert to the floats 5.0 and 9.0, which are not
    zero. *)
Class PyFloatLaws (F : Type) `{PyFloatOps F} : Prop := {
  of_int_5 : of_int 5 = mret (literal 5);
  of_int_9 : of_int 9 = mret (literal 9);
  nonzero_5 : fis_zero (literal 5) = false;
  nonzero_9 : fis_zero (literal 9) = false
}.

(** A registry in which no unit name is defined: every lookup raises.  It
    stands in where a registry is needed and never consulted. *)
Definition empty_registry {F : Type} : pynum F -> string -> string -> option F :=
  fun _ _ _ => None.

(** "Not a finite numeric value": not a number at all, or a float that is
    an infinity or a NaN. *)
Definition is_finite_float (f : float) : bool :=
  negb (is_nan f) && negb (is_infinity f).

Definition is_finite_number (v : pyval float) : bool :=
  match v with
  | Num (PyFloat f) => is_finite_float f
  | Num _ => true
  | _ => false
  end.

(** [|x - y| <= tol], both finite *)
Definition within (tol x y : float) : bool :=
  is_finite_float x && is_finite_float y
  && PrimFloat.leb (PrimFloat.abs (PrimFloat.sub x y)) tol.

(** ** Vocabulary of the statements *)

Definition temperature_units : list string :=
  ["celsius"; "fahrenheit"; "kelvin"; "rankine"].

(** [convert(convert(v, "celsius", "fahrenheit"), "fahrenheit", "celsius")];
    a rejected inner call hands [None] to the outer one. *)
Definition as_value {F : Type} (o : outcome F) : pyval F :=
  match o with
  | Returned r => Num r
  | Rejected _ => PyNone
  end.

Definition round_trip {F : Type} `{PyFloatOps F}
    (pint_convert : pynum F -> string -> string -> option F) (v : F)
    : outcome F :=
  convert_units pint_convert
    (as_value (convert_units pint_convert (Num (PyFloat v))
                 "celsius" "fahrenheit"))
    "fahrenheit" "celsius".

(** [sub] occurs somewhere inside [s] *)
Definition is_substring (sub s : string) : Prop :=
  exists pre post, s = pre +:+ sub +:+ post.

Section SessionVocabulary.
Context {F : Type}.

(** recording an entry that is already built *)
Definition save_item (it : history_item F) (st : session_state F)
    : session_state F :=
  save_conversion_history (timestamp it) (value it) (from_unit it)
    (to_unit it) (result it) st.

(** the key a pair is stored under *)
Definition pair_key (from_unit to_unit : string) : string :=
  from_unit +:+ "->" +:+ to_unit.

(** how many times the key [k] is toggled by [acts] *)
Definition toggles (k : string) (acts : list (action F)) : nat :=
  length (List.filter (fun a => match a with
                                | Toggle f t => bool_decide (pair_key f t = k)
                                | Save _ _ _ _ _ => false
                                end) acts).

End SessionVocabulary.

(** ** Real values of floats *)

(** powers of two with integer exponents *)
Definition p2 (e : Z) : R := powerRZ 2 e.

(** the record left by a right shift describes where [x] lies between
    [m * 2^e] and [(m + 1) * 2^e] *)
Definition inbetween (mrs : shr_record) (e : Z) (x : R) : Prop :=
  exists t : R,
    (0 <= t < 1)%R /\ x = ((IZR (shr_m mrs) + t) * p2 e)%R
    /\ (shr_r mrs = true <-> (1 / 2 <= t)%R)
    /\ (shr_s mrs = true <-> (t <> 0 /\ t <> 1 / 2)%R).

(** the real number a specified float stands for; 0 for infinities and NaN *)
Definition SF2R (f : spec_float) : R :=
  match f with
  | S754_finite s m e => ((if s then -1 else 1) * IZR (Zpos m) * p2 e)%R
  | _ => 0%R
  end.

(** zeros and finite numbers, as opposed to infinities and NaN *)
Definition SFfinite (f : spec_float) : bool :=
  match f with
  | S754_zero _ | S754_finite _ _ _ => true
  | _ => false
  end.

(** the sign bit as a factor *)
Definition sgn (s : bool) : R := if s then (-1)%R else 1%R.

(** half a unit in the last place of [z], generously: 2^-53 of [|z|], or
    2^-1075 where [z] is subnormal *)
Definition ulp_bound (z : R) : R := (p2 (-53) * Rabs z + p2 (-1075))%R.

(** the real number a float stands for *)
Definition B2R (f : float) : R := SF2R (Prim2SF f).

(** the float expressions that the celsius-to-fahrenheit and
    fahrenheit-to-celsius conversions evaluate *)
Definition c2f (v : float) : float := ((v + 273.15) * 9 / 5 - 459.67)%float.
Definition f2c (w : float) : float := ((w + 459.67) * 5 / 9 - 273.15)%float.

(** ** Real arithmetic *)

(** The arithmetic in which the formulas mean what they say: no rounding,
    no overflow.  It is the reference the float results are measured
    against. *)
Module RealArith.

Definition fis_zero (x : R) : bool := if Req_dec_T x 0 then true else false.

Definition of_int (z : Z) : exc R := mret (IZR z).

Definition int_truediv (a b : Z) : exc R :=
  if b =? 0 then raise (ZeroDivisionError "division by zero")
  else mret (IZR a / IZR b)%R.

End RealArith.

#[global] Instance real_ops : PyFloatOps R := {|
  literal := Q2R;
  fadd := Rplus;
  fsub := Rminus;
  fmul := Rmult;
  fdiv := Rdiv;
  fis_zero := RealArith.fis_zero;
  of_int := RealArith.of_int;
  int_truediv := RealArith.int_truediv
|}.

(** ** Display names, the page's handlers and what it renders *)

(** [s.split(sep)] for a non-empty [sep]: the text is cut at each occurrence
    of [sep] met from the left; [skip] counts the bytes of an occurrence
    still to be passed over and [piece] is the part read since the last
    cut. *)
Fixpoint split_from (sep : string) (skip : nat) (piece s : string)
    : list string :=
  match s with
  | EmptyString => [piece]
  | String c s' =>
      match skip with
      | S k => split_from sep k piece s'
      | O =>
          if starts_with sep s
          then piece :: split_from sep (String.length sep - 1) "" s'
          else split_from sep 0 (piece +:+ String c "") s'
      end
  end.

Definition split (sep s : string) : list string := split_from sep 0 "" s.

(** [sep.join(parts)] *)
Fixpoint join (sep : string) (parts : list string) : string :=
  match parts with
  | [] => ""
  | [p] => p
  | p :: rest => p +:+ sep +:+ join sep rest
  end.

(** [s.replace(old, new)] for a non-empty [old] *)
Definition replace (old new s : string) : string := join new (split old s).

(** [from_unit, to_unit = parts]; [None] is the ValueError raised when the
    list does not hold exactly two values. *)
Definition unpack_pair (parts : list string) : option (string * string) :=
  match parts with
  | [from_unit; to_unit] => Some (from_unit, to_unit)
  | _ => None
  end.

Section Display.
(** [str.title] *)
Variable title : string -> string.

Definition format_unit (unit : string) : string :=
  title (replace "_" " " unit).

(** The body of the loop over the favorites: the list item written for one
    key, or [None] when unpacking raises. *)
Definition favorite_item (fav : string) : option string :=
  match unpack_pair (split "->" fav) with
  | Some (from_unit, to_unit) =>
      Some ("<li>" +:+ format_unit from_unit +:+ " → "
            +:+ format_unit to_unit +:+ "</li>")
  | None => None
  end.

(** The items of the favorites card, in the order the set is iterated;
    nothing is written while the key is missing or the set is empty, and
    an item that raises ends the run. *)
Definition favorites_items {F : Type} (st : session_state F)
    : option (list string) :=
  match favorites st with
  | Some favs => mapM favorite_item (elements favs)
  | None => Some []
  end.

End Display.

(** the nested dict literal *)
Definition CONVERSION_FORMULAS : list (string * list (string * string)) := [
  ("temperature", [
     ("celsius_to_fahrenheit", "°F = (°C × 9/5) + 32");
     ("fahrenheit_to_celsius", "°C = (°F - 32) × 5/9");
     ("celsius_to_kelvin", "K = °C + 273.15");
     ("kelvin_to_celsius", "°C = K - 273.15")
  ])
].

(** [d[key]] for a key that is present, [key in d] otherwise *)
Fixpoint dict_get {V : Type} (key : string) (d : list (string * V)) : option V :=
  match d with
  | [] => None
  | (k, v) :: rest => if String.eqb key k then Some v else dict_get key rest
  end.

(** The text that [st.info] shows after a conversion, if any. *)
Definition formula_info (category from_unit to_unit : string) : option string :=
  if (category =? "🌡️ Temperature")%string then
    let formula_key := from_unit +:+ "_to_" +:+ to_unit in
    match dict_get "temperature" CONVERSION_FORMULAS with
    | Some formulas =>
        match dict_get formula_key formulas with
        | Some formula => Some ("Formula: " +:+ formula)
        | None => None
        end
    | None => None
    end
  else None.

Section Page.
Context {F : Type} `{PyFloatOps F}.
Variable pint_convert : pynum F -> string -> string -> option F.

(** One press of the Convert button: what the selectors and the number
    box hold, and the clock. *)
Record click : Type := {
  click_now : string;
  click_category : string;
  click_value : F;
  click_from : string;
  click_to : string
}.

(** The handler of the Convert button: the session it leaves and the
    formula it shows.  A conversion that returned [None] is not recorded. *)
Definition convert_clicked (c : click) (st : session_state F)
    : session_state F * option string :=
  let input_value := PyFloat (click_value c) in
  match convert_units pint_convert (Num input_value)
          (click_from c) (click_to c) with
  | Returned result =>
      (save_conversion_history (click_now c) input_value
         (click_from c) (click_to c) result st,
       formula_info (click_category c) (click_from c) (click_to c))
  | Rejected _ => (st, None)
  end.

(** the entry a press records, if it records one *)
Definition recorded (c : click) : option (history_item F) :=
  match convert_units pint_convert (Num (PyFloat (click_value c)))
          (click_from c) (click_to c) with
  | Returned result =>
      Some {| timestamp := click_now c; value := PyFloat (click_value c);
              from_unit := click_from c; to_unit := click_to c;
              result := result |}
  | Rejected _ => None
  end.

Definition convert_clicks (cs : list click) (st : session_state F)
    : session_state F :=
  fold_left (fun st c => fst (convert_clicked c st)) cs st.

End Page.

(** every toggle of [acts] pairs two names without "->" *)
Definition arrow_free_toggles {F : Type} (acts : list (action F)) : Prop :=
  forall from_unit to_unit, In (Toggle from_unit to_unit) acts ->
    contains "->" from_unit = false /\ contains "->" to_unit = false.

(** the checks behind two statements about the catalog *)
Definition arrow_free_entry (entry : string * list string) : bool :=
  forallb (fun unit => negb (contains "->" unit)) (snd entry).

Definition same_dimension_ok (entry : string * list string) : bool :=
  if existsb (fun u => str_in u temperature_units) (snd entry)
  then forallb (fun u => str_in u temperature_units) (snd entry)
  else true.

(** * Properties *)

#[global] Instance binary64_laws : PyFloatLaws float.
Proof. split; vm_compute; reflexivity. Qed.

#[global] Instance exact_laws : PyFloatLaws Qc.
Proof. split; try reflexivity. Qed.

(** ** Rounding in binary64 arithmetic *)

Lemma p2_pos e : (0 < p2 e)%R.
Proof. apply powerRZ_lt. lra. Qed.

Lemma p2_add a b : p2 (a + b) = (p2 a * p2 b)%R.
Proof. apply powerRZ_add. lra. Qed.

Lemma p2_succ e : p2 (e + 1) = (2 * p2 e)%R.
Proof. rewrite p2_add. unfold p2 at 2. rewrite powerRZ_1. lra. Qed.

Lemma p2_nonneg_IZR n : 0 <= n -> p2 n = IZR (2 ^ n).
Proof.
  intros Hn. unfold p2. rewrite <- Zpower_nat_powerRZ_absolu by assumption.
  rewrite Zpower_nat_Z, Zabs2Nat.id_abs, Z.abs_eq by assumption. reflexivity.
Qed.

Lemma p2_ge_1 n : 0 <= n -> (1 <= p2 n)%R.
Proof.
  intros Hn. rewrite p2_nonneg_IZR by assumption. apply IZR_le.
  assert (0 < 2 ^ n) by (apply Z.pow_pos_nonneg; lia). lia.
Qed.

Lemma p2_le a b : a <= b -> (p2 a <= p2 b)%R.
Proof.
  intros Hab. replace b with (a + (b - a)) by lia. rewrite p2_add.
  pose proof (p2_pos a). pose proof (p2_ge_1 (b - a) ltac:(lia)). nra.
Qed.

Lemma shr_1_inbetween mrs e x :
  0 <= shr_m mrs -> inbetween mrs e x ->
  0 <= shr_m (shr_1 mrs) /\ inbetween (shr_1 mrs) (e + 1) x.
Proof.
  destruct mrs as [m r s]. cbn [shr_m]. intros Hm (t & Ht & Hx & Hr & Hs).
  cbn [shr_m shr_r shr_s] in *.
  assert (Hcase : exists m' b, m = 2 * m' + Z.b2z b /\ 0 <= m' /\
            shr_1 {| shr_m := m; shr_r := r; shr_s := s |}
            = {| shr_m := m'; shr_r := b; shr_s := r || s |}).
  { destruct m as [| [p | p |] | p]; try lia.
    - exists 0, false. now repeat split.
    - exists (Zpos p), true. split; [cbn; lia | split; [lia | reflexivity]].
    - exists (Zpos p), false. split; [cbn; lia | split; [lia | reflexivity]].
    - exists 0, true. now repeat split. }
  destruct Hcase as (m' & b & -> & Hm' & ->). cbn [shr_m shr_r shr_s].
  split; [assumption |].
  exists ((IZR (Z.b2z b) + t) / 2)%R. cbn [shr_m shr_r shr_s].
  rewrite p2_succ, plus_IZR, mult_IZR in *.
  destruct b; cbn [Z.b2z] in *.
  - split; [lra |]. split; [rewrite Hx; field |]. split.
    + split; [intros _; lra | reflexivity].
    + rewrite orb_true_iff, Hr, Hs. split.
      * intros [Hh | [H0 Hh]]; split; lra.
      * intros [_ Hne]. destruct (Rle_dec (1/2) t); [left; assumption |].
        right. split; lra.
  - split; [lra |]. split; [rewrite Hx; field |]. split.
    + split; [discriminate | lra].
    + rewrite orb_true_iff, Hr, Hs. split.
      * intros [Hh | [H0 Hh]]; split; lra.
      * intros [Hne _]. destruct (Rle_dec (1/2) t); [left; assumption |].
        right. split; lra.
Qed.

Lemma iter_shr_1_inbetween p : forall mrs e x,
  0 <= shr_m mrs -> inbetween mrs e x ->
  0 <= shr_m (SpecFloat.iter_pos shr_1 p mrs)
  /\ inbetween (SpecFloat.iter_pos shr_1 p mrs) (e + Zpos p) x.
Proof.
  induction p as [p IH | p IH |]; intros mrs e x Hm Hin; cbn [SpecFloat.iter_pos].
  - destruct (shr_1_inbetween mrs e x Hm Hin) as [H1 H2].
    destruct (IH _ _ _ H1 H2) as [H3 H4].
    destruct (IH _ _ _ H3 H4) as [H5 H6].
    split; [assumption |].
    replace (e + Z.pos p~1) with (e + 1 + Z.pos p + Z.pos p) by lia. assumption.
  - destruct (IH _ _ _ Hm Hin) as [H3 H4].
    destruct (IH _ _ _ H3 H4) as [H5 H6].
    split; [assumption |].
    replace (e + Z.pos p~0) with (e + Z.pos p + Z.pos p) by lia. assumption.
  - now apply shr_1_inbetween.
Qed.

Lemma shr_inbetween mrs e n x :
  0 <= shr_m mrs -> inbetween mrs e x ->
  0 <= shr_m (fst (shr mrs e n))
  /\ inbetween (fst (shr mrs e n)) (snd (shr mrs e n)) x
  /\ snd (shr mrs e n) = e + Z.max 0 n.
Proof.
  intros Hm Hin. destruct n as [| p | p]; cbn [shr fst snd].
  - repeat split; [assumption | assumption | lia].
  - destruct (iter_shr_1_inbetween p mrs e x Hm Hin). repeat split; try assumption; lia.
  - repeat split; [assumption | assumption | lia].
Qed.

(** *** binary digits *)

Lemma digits2_pos_bounds p :
  2 ^ (Zpos (digits2_pos p) - 1) <= Zpos p < 2 ^ Zpos (digits2_pos p).
Proof.
  induction p as [p IH | p IH |]; cbn [digits2_pos].
  - rewrite Pos2Z.inj_succ.
    replace (Z.succ (Zpos (digits2_pos p)) - 1) with (Z.succ (Zpos (digits2_pos p) - 1)) by lia.
    rewrite !Z.pow_succ_r by lia. lia.
  - rewrite Pos2Z.inj_succ.
    replace (Z.succ (Zpos (digits2_pos p)) - 1) with (Z.succ (Zpos (digits2_pos p) - 1)) by lia.
    rewrite !Z.pow_succ_r by lia. lia.
  - cbn. lia.
Qed.

Lemma Zdigits2_bounds m :
  0 < m -> 1 <= Zdigits2 m /\ 2 ^ (Zdigits2 m - 1) <= m < 2 ^ Zdigits2 m.
Proof.
  destruct m as [| p | p]; try lia. intros _. cbn [Zdigits2].
  split; [lia | apply digits2_pos_bounds].
Qed.

Lemma Zdigits2_le m k : 0 < m -> 0 <= k -> m < 2 ^ k -> Zdigits2 m <= k.
Proof.
  intros Hm Hk Hlt. destruct (Zdigits2_bounds m Hm) as [Hd [Hlo _]].
  destruct (Z_le_gt_dec (Zdigits2 m) k) as [Hle | Hgt]; [assumption |].
  exfalso. assert (2 ^ k <= 2 ^ (Zdigits2 m - 1)) by (apply Z.pow_le_mono_r; lia).
  lia.
Qed.

Lemma fexp64 e : SpecFloat.fexp prec emax e = Z.max (e - 53) (-1074).
Proof. reflexivity. Qed.

Lemma round_nearest_even_spec mrs t :
  (0 <= t < 1)%R ->
  (shr_r mrs = true <-> (1 / 2 <= t)%R) ->
  (shr_s mrs = true <-> (t <> 0 /\ t <> 1 / 2)%R) ->
  let m1 := round_nearest_even (shr_m mrs) (loc_of_shr_record mrs) in
  (m1 = shr_m mrs \/ m1 = shr_m mrs + 1)
  /\ (Rabs (IZR m1 - (IZR (shr_m mrs) + t)) <= 1 / 2)%R.
Proof.
  destruct mrs as [m r s]. cbn [shr_m shr_r shr_s loc_of_shr_record].
  intros Ht Hr Hs.
  destruct r, s; cbn [round_nearest_even].
  - split; [right; reflexivity |]. rewrite plus_IZR.
    assert (1 / 2 <= t)%R by now apply Hr.
    apply Rabs_le. lra.
  - assert (1 / 2 <= t)%R by now apply Hr.
    assert (t = 1 / 2)%R.
    { destruct (Req_dec t (1 / 2)) as [|Hne]; [assumption |].
      assert (false = true) by (apply Hs; split; lra). discriminate. }
    destruct (Z.even m); [split; [left; reflexivity |] | split; [right; reflexivity |]].
    + apply Rabs_le. lra.
    + rewrite plus_IZR. apply Rabs_le. lra.
  - split; [left; reflexivity |].
    assert (~ (1 / 2 <= t))%R by (intros Hh; apply Hr in Hh; discriminate).
    apply Rabs_le. lra.
  - split; [left; reflexivity |].
    assert (~ (1 / 2 <= t))%R by (intros Hh; apply Hr in Hh; discriminate).
    assert (t = 0)%R.
    { destruct (Req_dec t 0) as [|Hne]; [assumption |].
      assert (false = true) by (apply Hs; split; lra). discriminate. }
    apply Rabs_le. lra.
Qed.

Lemma shr_m_of_loc m l : shr_m (shr_record_of_loc m l) = m.
Proof. destruct l as [| []]; reflexivity. Qed.

Lemma inbetween_exact m e :
  inbetween (shr_record_of_loc m loc_Exact) e (IZR m * p2 e).
Proof.
  exists 0%R. cbn. split; [lra |]. split; [ring |].
  split; split; try discriminate; try lra; intros [H _]; now elim H.
Qed.

Lemma Zdigits2_upper m : 0 <= m -> 0 <= Zdigits2 m /\ m < 2 ^ Zdigits2 m.
Proof.
  intros Hm. destruct (Z.eq_dec m 0) as [-> | Hne]; [cbn; lia |].
  destruct (Zdigits2_bounds m ltac:(lia)). lia.
Qed.

Lemma binary_round_aux_spec sx mx ex lx x :
  0 <= mx ->
  inbetween (shr_record_of_loc mx lx) ex x ->
  let E := SpecFloat.fexp prec emax (Zdigits2 mx + ex) in
  ex <= E -> E <= 970 ->
  let r := binary_round_aux prec emax sx mx ex lx in
  SFfinite r = true
  /\ exists y, SF2R r = (sgn sx * y)%R /\ (Rabs (y - x) <= p2 (E - 1))%R.
Proof.
  intros Hmx Hin E HexE HE r.
  assert (HEdef : E = Z.max (Zdigits2 mx + ex - 53) (-1074)) by reflexivity.
  destruct (Zdigits2_upper mx Hmx) as (Hd1 & Hdhi).
  (* x < 2^(d + ex) *)
  assert (Hxhi : (x < p2 (Zdigits2 mx + ex))%R).
  { destruct Hin as (t0 & Ht0 & Hx0 & _). rewrite shr_m_of_loc in Hx0.
    rewrite Hx0, p2_add, (p2_nonneg_IZR (Zdigits2 mx)) by lia.
    pose proof (p2_pos ex). assert (IZR mx + 1 <= IZR (2 ^ Zdigits2 mx))%R.
    { rewrite <- plus_IZR. apply IZR_le. lia. }
    nra. }
  (* first shift *)
  subst r. unfold binary_round_aux, shr_fexp. fold E.
  pose proof (shr_inbetween (shr_record_of_loc mx lx) ex (E - ex) x) as Hshr.
  rewrite shr_m_of_loc in Hshr. specialize (Hshr ltac:(lia) Hin).
  destruct (shr (shr_record_of_loc mx lx) ex (E - ex)) as [mrs' e'].
  cbn [fst snd] in Hshr. destruct Hshr as (Hm' & Hin' & He').
  replace (ex + Z.max 0 (E - ex)) with E in He' by lia. subst e'.
  destruct Hin' as (t & Ht & Hx & Hr & Hs).
  destruct (round_nearest_even_spec mrs' t Ht Hr Hs) as [Hm1 Herr].
  set (m1 := round_nearest_even (shr_m mrs') (loc_of_shr_record mrs')) in *.
  clearbody m1.
  (* m' < 2^53 *)
  assert (Hm'hi : shr_m mrs' < 2 ^ 53).
  { apply lt_IZR. rewrite <- p2_nonneg_IZR by lia.
    assert (Hk : (p2 (Zdigits2 mx + ex) <= p2 (53 + E))%R) by (apply p2_le; lia).
    rewrite (p2_add 53 E) in Hk. pose proof (p2_pos E).
    assert ((IZR (shr_m mrs') + t) * p2 E < p2 53 * p2 E)%R by lra.
    assert (IZR (shr_m mrs') + t < p2 53)%R by nra. lra. }
  assert (Hm1hi : 0 <= m1 <= 2 ^ 53) by lia.
  (* the error of the first rounding *)
  assert (Hy : (Rabs (IZR m1 * p2 E - x) <= p2 (E - 1))%R).
  { replace E with (E - 1 + 1) at 1 by lia. rewrite Hx.
    replace E with (E - 1 + 1) at 2 by lia. rewrite p2_succ.
    pose proof (p2_pos (E - 1)).
    replace (IZR m1 * (2 * p2 (E - 1)) - (IZR (shr_m mrs') + t) * (2 * p2 (E - 1)))%R
      with ((IZR m1 - (IZR (shr_m mrs') + t)) * (2 * p2 (E - 1)))%R by ring.
    rewrite Rabs_mult, (Rabs_pos_eq (2 * p2 (E - 1))) by lra.
    pose proof (Rabs_pos (IZR m1 - (IZR (shr_m mrs') + t))). nra. }
  (* second shift *)
  destruct (Z.eq_dec m1 0) as [Hz | Hnz].
  { rewrite Hz. cbn [Zdigits2]. rewrite fexp64.
    replace (Z.max (0 + E - 53) (-1074) - E) with (Z.max (-53) (-1074 - E)) by lia.
    rewrite Hz in Hy.
    destruct (Z.max (-53) (-1074 - E)) eqn:Hmin; try lia;
      (cbn; split; [reflexivity |]; exists 0%R; split; [ring |];
       replace (0 - x)%R with (0 * p2 E - x)%R by ring; exact Hy). }
  assert (Hm1pos : 0 < m1) by lia.
  destruct (Zdigits2_bounds m1 Hm1pos) as (Hd1' & Hd1lo & Hd1hi).
  assert (Hd1le : Zdigits2 m1 <= 54).
  { apply Zdigits2_le; [assumption | lia |]. 
    assert (2 ^ 53 < 2 ^ 54) by (apply Z.pow_lt_mono_r; lia). lia. }
  rewrite fexp64.
  destruct (Z_le_gt_dec (Zdigits2 m1) 53) as [Hsmall | Hbig].
  - (* no second shift *)
    assert (Hn2 : Z.max (Zdigits2 m1 + E - 53) (-1074) - E <= 0) by lia.
    destruct (Z.max (Zdigits2 m1 + E - 53) (-1074) - E) eqn:Hn2eq; try lia;
      cbn [shr shr_record_of_loc shr_m];
      (destruct m1 as [| q | q]; try lia);
      (replace (E <=? emax - prec) with true by (symmetry; apply Z.leb_le; change (emax - prec) with 971; lia));
      (split; [reflexivity |]); exists (IZR (Zpos q) * p2 E)%R;
      (split; [cbn [SF2R]; unfold sgn; ring | exact Hy]).
  - (* the mantissa reached 2^53: one more shift *)
    assert (Hd54 : Zdigits2 m1 = 54) by lia.
    assert (Hm1eq : m1 = 2 ^ 53).
    { rewrite Hd54 in Hd1lo. cbn in Hd1lo |- *. lia. }
    rewrite Hd54.
    replace (Z.max (54 + E - 53) (-1074) - E) with 1 by lia.
    rewrite Hm1eq in *. cbn [shr shr_record_of_loc SpecFloat.iter_pos].
    change (shr_1 {| shr_m := 2 ^ 53; shr_r := false; shr_s := false |})
      with {| shr_m := 2 ^ 52; shr_r := false; shr_s := false |}.
    cbn [shr_m]. change (2 ^ 52) with (Zpos (2 ^ 52)).
    replace (E + 1 <=? emax - prec) with true by (symmetry; apply Z.leb_le; change (emax - prec) with 971; lia).
    split; [reflexivity |]. exists (IZR (2 ^ 53) * p2 E)%R.
    split; [| exact Hy]. cbn [SF2R]. unfold sgn. rewrite p2_succ.
    change (2 ^ 53) with (2 * 2 ^ 52). rewrite mult_IZR.
    change (Zpos (2 ^ 52)) with (2 ^ 52). ring.
Qed.

Lemma p2_lt_inv a b : (p2 a < p2 b)%R -> a < b.
Proof.
  intros Hlt. destruct (Z_lt_le_dec a b) as [|Hle]; [assumption |].
  apply p2_le in Hle. lra.
Qed.

(** the rounding error is at most half a unit in the last place: 2^-53 of
    the value, or 2^-1075 in the subnormal range *)
Lemma binary_round_aux_error sx mx ex lx x :
  0 <= mx ->
  inbetween (shr_record_of_loc mx lx) ex x ->
  ex <= SpecFloat.fexp prec emax (Zdigits2 mx + ex) ->
  (x < p2 1023)%R ->
  let r := binary_round_aux prec emax sx mx ex lx in
  SFfinite r = true
  /\ exists y, SF2R r = (sgn sx * y)%R
               /\ (Rabs (y - x) <= p2 (-53) * x + p2 (-1075))%R.
Proof.
  intros Hmx Hin Hn Hx r.
  set (E := SpecFloat.fexp prec emax (Zdigits2 mx + ex)) in *.
  assert (HEdef : E = Z.max (Zdigits2 mx + ex - 53) (-1074)) by reflexivity.
  assert (Hxlo : (IZR mx * p2 ex <= x)%R).
  { destruct Hin as (t0 & Ht0 & Hx0 & _). rewrite shr_m_of_loc in Hx0.
    pose proof (p2_pos ex). rewrite Hx0. nra. }
  assert (Hx0 : (0 <= x)%R).
  { pose proof (p2_pos ex). assert (0 <= IZR mx)%R by (apply IZR_le; lia). nra. }
  assert (Hhalf : (p2 (E - 1) <= p2 (-53) * x + p2 (-1075))%R
                  /\ E <= 970).
  { destruct (Z.eq_dec mx 0) as [Hz | Hnz].
    - subst mx. cbn [Zdigits2] in HEdef.
      assert (E = -1074) by lia. split; [| lia].
      replace (E - 1) with (-1075) by lia. pose proof (p2_pos (-53)). nra.
    - destruct (Zdigits2_bounds mx ltac:(lia)) as (Hd & Hlo & _).
      assert (Hplo : (p2 (Zdigits2 mx - 1 + ex) <= x)%R).
      { rewrite p2_add, p2_nonneg_IZR by lia. pose proof (p2_pos ex).
        assert (IZR (2 ^ (Zdigits2 mx - 1)) <= IZR mx)%R by now apply IZR_le.
        nra. }
      assert (Zdigits2 mx - 1 + ex < 1023) by (apply p2_lt_inv; lra).
      split; [| lia].
      destruct (Z_le_gt_dec (Zdigits2 mx + ex - 53) (-1074)) as [Hsub | Hnorm].
      + replace (E - 1) with (-1075) by lia. pose proof (p2_pos (-53)). nra.
      + replace (E - 1) with (-53 + (Zdigits2 mx - 1 + ex)) by lia.
        rewrite p2_add. pose proof (p2_pos (-53)). pose proof (p2_pos (-1075)).
        nra. }
  destruct Hhalf as [Hhalf HE].
  destruct (binary_round_aux_spec sx mx ex lx x Hmx Hin Hn HE) as (Hfin & y & Hy & Herr).
  split; [exact Hfin |]. exists y. split; [exact Hy |].
  fold E in Herr. lra.
Qed.

Lemma Zdigits2_unique m k :
  0 < m -> 2 ^ (k - 1) <= m < 2 ^ k -> 1 <= k -> Zdigits2 m = k.
Proof.
  intros Hm [Hlo Hhi] Hk.
  pose proof (Zdigits2_le m k Hm ltac:(lia) Hhi) as Hle.
  destruct (Zdigits2_bounds m Hm) as (Hd & _ & Hdhi).
  assert (2 ^ (k - 1) < 2 ^ Zdigits2 m) by lia.
  apply Z.pow_lt_mono_r_iff in H; lia.
Qed.

Lemma iter_xO_value m d : Zpos (Pos.iter xO m d) = Zpos m * 2 ^ Zpos d.
Proof.
  change (Pos.iter xO m d) with (shift_pos d m).
  rewrite shift_pos_correct, Z.pow_pos_fold. lia.
Qed.

Lemma shl_align_spec mx ex ez :
  let mz := fst (shl_align mx ex ez) in
  let e := snd (shl_align mx ex ez) in
  e = Z.min ex ez
  /\ Zpos mz = Zpos mx * 2 ^ (ex - e)
  /\ (IZR (Zpos mz) * p2 e = IZR (Zpos mx) * p2 ex)%R
  /\ Zdigits2 (Zpos mz) = Zdigits2 (Zpos mx) + (ex - e).
Proof.
  unfold shl_align. destruct (ez - ex) as [| d | d] eqn:Hd; cbn [fst snd].
  - replace (Z.min ex ez) with ex by lia. rewrite Z.sub_diag, Z.pow_0_r.
    repeat split; lia.
  - replace (Z.min ex ez) with ex by lia. rewrite Z.sub_diag, Z.pow_0_r.
    repeat split; lia.
  - assert (Hex : ex - ez = Zpos d) by lia.
    split; [lia |]. rewrite iter_xO_value, Hex.
    split; [reflexivity |].
    assert (Hpow : 0 < 2 ^ Zpos d) by (apply Z.pow_pos_nonneg; lia).
    split.
    + rewrite mult_IZR, <- p2_nonneg_IZR by lia.
      replace (p2 ex) with (p2 (Zpos d + ez)) by (f_equal; lia).
      rewrite p2_add. ring.
    + destruct (Zdigits2_bounds (Zpos mx) ltac:(lia)) as (Hd1 & Hlo & Hhi).
      apply Zdigits2_unique; [lia | | lia].
      replace (Zdigits2 (Zpos mx) + Zpos d - 1)
        with (Zdigits2 (Zpos mx) - 1 + Zpos d) by lia.
      rewrite !Z.pow_add_r by lia. nia.
Qed.

Lemma binary_round_error s m e :
  (IZR (Zpos m) * p2 e < p2 1023)%R ->
  let r := binary_round prec emax s m e in
  SFfinite r = true
  /\ exists y, SF2R r = (sgn s * y)%R
               /\ (Rabs (y - IZR (Zpos m) * p2 e)
                   <= p2 (-53) * (IZR (Zpos m) * p2 e) + p2 (-1075))%R.
Proof.
  intros Hx r. subst r. unfold binary_round.
  pose proof (shl_align_spec m e (SpecFloat.fexp prec emax (Zpos (digits2_pos m) + e)))
    as (He & Hm & Hv & Hd).
  destruct (shl_align m e (SpecFloat.fexp prec emax (Zpos (digits2_pos m) + e)))
    as [mz ez]. cbn [fst snd] in *.
  rewrite <- Hv in *.
  apply binary_round_aux_error; [lia | apply inbetween_exact | | exact Hx].
  rewrite Hd. cbn [Zdigits2].
  replace (Zpos (digits2_pos m) + (e - ez) + ez) with (Zpos (digits2_pos m) + e) by lia.
  lia.
Qed.

Lemma binary_normalize_error M e :
  (Rabs (IZR M * p2 e) < p2 1023)%R ->
  let r := binary_normalize prec emax M e false in
  SFfinite r = true
  /\ (Rabs (SF2R r - IZR M * p2 e)
      <= p2 (-53) * Rabs (IZR M * p2 e) + p2 (-1075))%R.
Proof.
  intros Hx r. subst r. pose proof (p2_pos e) as He.
  pose proof (p2_pos (-53)). pose proof (p2_pos (-1075)).
  destruct M as [| m | m]; cbn [binary_normalize].
  - split; [reflexivity |]. cbn [SF2R]. rewrite Rmult_0_l, Rminus_0_r, Rabs_R0. lra.
  - assert (Hpos : (0 < IZR (Zpos m) * p2 e)%R).
    { apply Rmult_lt_0_compat; [apply IZR_lt; lia | assumption]. }
    rewrite (Rabs_pos_eq (IZR (Zpos m) * p2 e)) in Hx |- * by lra.
    destruct (binary_round_error false m e Hx) as (Hfin & y & Hy & Herr).
    split; [exact Hfin |]. rewrite Hy. unfold sgn. rewrite Rmult_1_l. exact Herr.
  - assert (Hpos : (0 < IZR (Zpos m) * p2 e)%R).
    { apply Rmult_lt_0_compat; [apply IZR_lt; lia | assumption]. }
    assert (Hneg : (IZR (Zneg m) * p2 e = - (IZR (Zpos m) * p2 e))%R).
    { change (Zneg m) with (- Zpos m). rewrite opp_IZR. ring. }
    rewrite Hneg in Hx |- *.
    rewrite Rabs_Ropp, (Rabs_pos_eq (IZR (Zpos m) * p2 e)) in Hx |- * by lra.
    destruct (binary_round_error true m e Hx) as (Hfin & y & Hy & Herr).
    split; [exact Hfin |]. rewrite Hy. unfold sgn.
    replace (-1 * y - - (IZR (Zpos m) * p2 e))%R
      with (- (y - IZR (Zpos m) * p2 e))%R by ring.
    rewrite Rabs_Ropp. exact Herr.
Qed.

(** *** the four operations on finite floats *)

Lemma ulp_bound_nonneg z : (0 <= ulp_bound z)%R.
Proof.
  unfold ulp_bound. pose proof (p2_pos (-53)). pose proof (p2_pos (-1075)).
  pose proof (Rabs_pos z). nra.
Qed.

Lemma exact_within z : (Rabs (z - z) <= ulp_bound z)%R.
Proof. rewrite Rminus_diag, Rabs_R0. apply ulp_bound_nonneg. Qed.

Lemma IZR_cond_Zopp s m : IZR (cond_Zopp s m) = (sgn s * IZR m)%R.
Proof. destruct s; cbn; [rewrite opp_IZR |]; ring. Qed.

Lemma aligned_value s mx ex ey :
  (IZR (cond_Zopp s (Zpos (fst (shl_align mx ex (Z.min ex ey))))) * p2 (Z.min ex ey)
   = SF2R (S754_finite s mx ex))%R.
Proof.
  destruct (shl_align_spec mx ex (Z.min ex ey)) as (He & _ & Hv & _).
  rewrite IZR_cond_Zopp. cbn [SF2R]. fold (sgn s).
  replace (Z.min ex (Z.min ex ey)) with (Z.min ex ey) in He by lia.
  rewrite He in Hv. rewrite Rmult_assoc, Hv. ring.
Qed.

Lemma SFadd_error x y :
  SFfinite x = true -> SFfinite y = true ->
  (Rabs (SF2R x + SF2R y) < p2 1023)%R ->
  SFfinite (SFadd prec emax x y) = true
  /\ (Rabs (SF2R (SFadd prec emax x y) - (SF2R x + SF2R y))
      <= ulp_bound (SF2R x + SF2R y))%R.
Proof.
  intros Hx Hy Hz.
  destruct x as [sx | sx | | sx mx ex], y as [sy | sy | | sy my ey];
    try discriminate; cbn [SFadd].
  - split; [now destruct sx, sy |].
    replace (SF2R (if sx then if sy then _ else _ else if sy then _ else _)) with 0%R
      by now destruct sx, sy.
    cbn [SF2R]. rewrite Rplus_0_l. apply exact_within.
  - split; [reflexivity |]. cbn [SF2R] in *. rewrite Rplus_0_l. apply exact_within.
  - split; [reflexivity |]. cbn [SF2R] in *. rewrite Rplus_0_r. apply exact_within.
  - cbv zeta.
    set (M := cond_Zopp sx _ + cond_Zopp sy _).
    assert (HM : (IZR M * p2 (Z.min ex ey)
                  = SF2R (S754_finite sx mx ex) + SF2R (S754_finite sy my ey))%R).
    { subst M. rewrite plus_IZR, Rmult_plus_distr_r, aligned_value.
      rewrite (Z.min_comm ex ey), aligned_value. reflexivity. }
    rewrite <- HM in *. now apply binary_normalize_error.
Qed.

Lemma SFsub_error x y :
  SFfinite x = true -> SFfinite y = true ->
  (Rabs (SF2R x - SF2R y) < p2 1023)%R ->
  SFfinite (SFsub prec emax x y) = true
  /\ (Rabs (SF2R (SFsub prec emax x y) - (SF2R x - SF2R y))
      <= ulp_bound (SF2R x - SF2R y))%R.
Proof.
  intros Hx Hy Hz.
  destruct x as [sx | sx | | sx mx ex], y as [sy | sy | | sy my ey];
    try discriminate; cbn [SFsub].
  - split; [now destruct sx, sy |].
    replace (SF2R (if sx then if sy then _ else _ else if sy then _ else _)) with 0%R
      by now destruct sx, sy.
    cbn [SF2R]. rewrite Rminus_0_r. apply exact_within.
  - split; [reflexivity |]. cbn [SF2R] in *.
    replace ((if negb sy then -1 else 1) * IZR (Zpos my) * p2 ey)%R
      with (0 - (if sy then -1 else 1) * IZR (Zpos my) * p2 ey)%R
      by (destruct sy; cbn; ring).
    apply exact_within.
  - split; [reflexivity |]. cbn [SF2R] in *. rewrite Rminus_0_r. apply exact_within.
  - cbv zeta.
    set (M := cond_Zopp sx _ - cond_Zopp sy _).
    assert (HM : (IZR M * p2 (Z.min ex ey)
                  = SF2R (S754_finite sx mx ex) - SF2R (S754_finite sy my ey))%R).
    { subst M. rewrite minus_IZR. unfold Rminus.
      rewrite Rmult_plus_distr_r, aligned_value.
      rewrite Ropp_mult_distr_l_reverse.
      rewrite (Z.min_comm ex ey), aligned_value. reflexivity. }
    rewrite <- HM in *. now apply binary_normalize_error.
Qed.

Lemma sgn_xorb a b : sgn (xorb a b) = (sgn a * sgn b)%R.
Proof. destruct a, b; cbn; ring. Qed.

Lemma Rabs_sgn s : Rabs (sgn s) = 1%R.
Proof. destruct s; cbn [sgn]; unfold Rabs; destruct (Rcase_abs _); lra. Qed.

Lemma Rabs_sgn_mult s z : Rabs (sgn s * z) = Rabs z.
Proof. rewrite Rabs_mult, Rabs_sgn. ring. Qed.

Lemma valid_finite s m e :
  valid_binary (S754_finite s m e) = true ->
  e = Z.max (Zpos (digits2_pos m) + e - 53) (-1074) /\ e <= 971.
Proof.
  unfold SpecFloat.valid_binary, SpecFloat.bounded, SpecFloat.canonical_mantissa.
  rewrite andb_true_iff, Z.eqb_eq, Z.leb_le, fexp64.
  change (emax - prec) with 971. lia.
Qed.

Lemma Zdigits2_mul_ge a b :
  Zpos (digits2_pos a) + Zpos (digits2_pos b) - 1 <= Zpos (digits2_pos (a * b)).
Proof.
  pose proof (digits2_pos_bounds a) as [Ha _].
  pose proof (digits2_pos_bounds b) as [Hb _].
  pose proof (digits2_pos_bounds (a * b)) as [_ Hab].
  set (da := Zpos (digits2_pos a)) in *. set (db := Zpos (digits2_pos b)) in *.
  set (dab := Zpos (digits2_pos (a * b))) in *.
  assert (Hlow : 2 ^ (da - 1 + (db - 1)) <= Zpos (a * b)).
  { rewrite Z.pow_add_r by lia. rewrite Pos2Z.inj_mul.
    apply Z.mul_le_mono_nonneg; try assumption; apply Z.pow_nonneg; lia. }
  assert (Hlt : 2 ^ (da - 1 + (db - 1)) < 2 ^ dab) by lia.
  apply Z.pow_lt_mono_r_iff in Hlt; lia.
Qed.

Lemma SFmul_error x y :
  valid_binary x = true -> valid_binary y = true ->
  SFfinite x = true -> SFfinite y = true ->
  (Rabs (SF2R x * SF2R y) < p2 1023)%R ->
  SFfinite (SFmul prec emax x y) = true
  /\ (Rabs (SF2R (SFmul prec emax x y) - SF2R x * SF2R y)
      <= ulp_bound (SF2R x * SF2R y))%R.
Proof.
  intros Vx Vy Hx Hy Hz.
  destruct x as [sx | sx | | sx mx ex], y as [sy | sy | | sy my ey];
    try discriminate; cbn [SFmul].
  - split; [reflexivity |]. cbn [SF2R]. rewrite Rmult_0_l. apply exact_within.
  - split; [reflexivity |]. cbn [SF2R]. rewrite Rmult_0_l. apply exact_within.
  - split; [reflexivity |]. cbn [SF2R]. rewrite Rmult_0_r. apply exact_within.
  - apply valid_finite in Vx, Vy. destruct Vx as [Vx _], Vy as [Vy _].
    pose proof (Zdigits2_mul_ge mx my) as Hd.
    set (z := (IZR (Zpos (mx * my)) * p2 (ex + ey))%R).
    assert (Hprod : (SF2R (S754_finite sx mx ex) * SF2R (S754_finite sy my ey)
                     = sgn (xorb sx sy) * z)%R).
    { subst z. cbn [SF2R]. fold (sgn sx) (sgn sy).
      rewrite sgn_xorb, Pos2Z.inj_mul, mult_IZR, p2_add. ring. }
    assert (Hzpos : (0 < z)%R).
    { subst z. apply Rmult_lt_0_compat; [apply IZR_lt; lia | apply p2_pos]. }
    assert (Habs : Rabs (sgn (xorb sx sy) * z) = z).
    { rewrite Rabs_sgn_mult. apply Rabs_pos_eq. lra. }
    rewrite Hprod in *. rewrite Habs in Hz.
    destruct (binary_round_aux_error (xorb sx sy) (Zpos (mx * my)) (ex + ey)
                loc_Exact z) as (Hfin & w & Hw & Herr).
    + lia.
    + apply inbetween_exact.
    + rewrite fexp64. cbn [Zdigits2]. lia.
    + exact Hz.
    + split; [exact Hfin |]. rewrite Hw. unfold ulp_bound. rewrite Habs.
      replace (sgn (xorb sx sy) * w - sgn (xorb sx sy) * z)%R
        with (sgn (xorb sx sy) * (w - z))%R by ring.
      rewrite Rabs_sgn_mult. lra.
Qed.

Lemma ratio_cases r m :
  0 < m -> 0 <= r < m ->
  let t := (IZR r / IZR m)%R in
  (0 <= t < 1)%R
  /\ (r = 0 <-> t = 0%R)
  /\ (2 * r < m <-> (t < 1 / 2)%R)
  /\ (2 * r = m <-> t = (1 / 2)%R).
Proof.
  intros Hm Hr t.
  assert (Hmr : (0 < IZR m)%R) by (apply IZR_lt; lia).
  assert (Ht : (t * IZR m = IZR r)%R) by (subst t; field; lra).
  assert (Hr0 : (0 <= IZR r < IZR m)%R) by (split; [apply IZR_le | apply IZR_lt]; lia).
  split; [split; [| apply Rmult_lt_reg_r with (IZR m)]; try assumption; nra |].
  split; [| split].
  - split; [intros ->; subst t; unfold Rdiv; apply Rmult_0_l |].
    intros H0. apply eq_IZR. rewrite <- Ht, H0. ring.
  - split.
    + intros H2. apply IZR_lt in H2. rewrite mult_IZR in H2. nra.
    + intros H2. apply lt_IZR. rewrite mult_IZR. nra.
  - split.
    + intros H2. apply (f_equal IZR) in H2. rewrite mult_IZR in H2. nra.
    + intros H2. apply eq_IZR. rewrite mult_IZR. nra.
Qed.

Lemma new_location_inbetween q r m e :
  0 < m -> 0 <= r < m ->
  inbetween (shr_record_of_loc q (new_location m r)) e
            ((IZR q + IZR r / IZR m) * p2 e).
Proof.
  intros Hm Hr. destruct (ratio_cases r m Hm Hr) as (Ht & H0 & Hlt & Heq).
  set (t := (IZR r / IZR m)%R) in *.
  exists t. split; [exact Ht |]. split; [now rewrite shr_m_of_loc |].
  unfold new_location, new_location_even, new_location_odd.
  assert (Hexact : r = 0 ->
            (shr_r (shr_record_of_loc q loc_Exact) = true <-> (1 / 2 <= t)%R)
            /\ (shr_s (shr_record_of_loc q loc_Exact) = true
                <-> (t <> 0 /\ t <> 1 / 2)%R)).
  { intros Hz. assert (t = 0%R) by now apply H0.
    cbn. repeat split; intros; first [discriminate | reflexivity | lra]. }
  assert (Hbelow : 2 * r < m -> r <> 0 ->
            (shr_r (shr_record_of_loc q (loc_Inexact Lt)) = true <-> (1 / 2 <= t)%R)
            /\ (shr_s (shr_record_of_loc q (loc_Inexact Lt)) = true
                <-> (t <> 0 /\ t <> 1 / 2)%R)).
  { intros Hc Hnz. assert (t < 1 / 2)%R by now apply Hlt.
    assert (t <> 0%R) by (intros Hc'; apply H0 in Hc'; lia).
    cbn. repeat split; intros; first [discriminate | reflexivity | lra]. }
  assert (Habove : m < 2 * r ->
            (shr_r (shr_record_of_loc q (loc_Inexact Gt)) = true <-> (1 / 2 <= t)%R)
            /\ (shr_s (shr_record_of_loc q (loc_Inexact Gt)) = true
                <-> (t <> 0 /\ t <> 1 / 2)%R)).
  { intros Hc.
    assert (~ (t < 1 / 2)%R) by (intros Hc'; apply Hlt in Hc'; lia).
    assert (t <> (1 / 2)%R) by (intros Hc'; apply Heq in Hc'; lia).
    cbn. repeat split; intros; first [discriminate | reflexivity | lra]. }
  assert (Hmid : 2 * r = m ->
            (shr_r (shr_record_of_loc q (loc_Inexact Eq)) = true <-> (1 / 2 <= t)%R)
            /\ (shr_s (shr_record_of_loc q (loc_Inexact Eq)) = true
                <-> (t <> 0 /\ t <> 1 / 2)%R)).
  { intros Hc. assert (t = (1 / 2)%R) by now apply Heq.
    cbn. repeat split; intros; first [discriminate | reflexivity | lra]. }
  destruct (Z.even m) eqn:Hev; destruct (Z.eqb_spec r 0) as [Hz | Hnz];
    try (now apply Hexact).
  - destruct (Z.compare_spec (2 * r) m) as [Hc | Hc | Hc];
      [now apply Hmid | now apply Hbelow | now apply Habove].
  - assert (Hodd : 2 * r <> m).
    { intros Hc. rewrite <- Hc, Z.even_mul in Hev. discriminate. }
    destruct (Z.compare_spec (2 * r + 1) m) as [Hc | Hc | Hc];
      [apply Hbelow; lia | apply Hbelow; lia | apply Habove; lia].
Qed.

Lemma Zdigits2_ge q k : 0 <= k -> 2 ^ k <= q -> k + 1 <= Zdigits2 q.
Proof.
  intros Hk Hq.
  assert (Hqpos : 0 < q) by (pose proof (Z.pow_pos_nonneg 2 k); lia).
  destruct (Zdigits2_bounds q Hqpos) as (_ & _ & Hhi).
  assert (Hlt : 2 ^ k < 2 ^ Zdigits2 q) by lia.
  apply Z.pow_lt_mono_r_iff in Hlt; [lia | lia |].
  destruct (Zdigits2_upper q ltac:(lia)). lia.
Qed.

Lemma SFdiv_error x sy my ey :
  SFfinite x = true ->
  let y := S754_finite sy my ey in
  (Rabs (SF2R x / SF2R y) < p2 1023)%R ->
  SFfinite (SFdiv prec emax x y) = true
  /\ (Rabs (SF2R (SFdiv prec emax x y) - SF2R x / SF2R y)
      <= ulp_bound (SF2R x / SF2R y))%R.
Proof.
  intros Hx y Hz. subst y.
  assert (Hy0 : (0 < IZR (Zpos my) * p2 ey)%R).
  { apply Rmult_lt_0_compat; [apply IZR_lt; lia | apply p2_pos]. }
  destruct x as [sx | sx | | sx mx ex]; try discriminate; cbn [SFdiv].
  - split; [reflexivity |]. cbn [SF2R]. unfold Rdiv. rewrite Rmult_0_l.
    apply exact_within.
  - unfold SFdiv_core_binary.
    set (d1 := Zdigits2 (Zpos mx)). set (d2 := Zdigits2 (Zpos my)).
    set (e' := Z.min (SpecFloat.fexp prec emax (d1 + ex - (d2 + ey))) (ex - ey)).
    set (s := ex - ey - e').
    assert (Hs : 0 <= s) by (subst s e'; lia).
    set (m' := match s with
               | 0 => Zpos mx
               | Zpos _ => Z.shiftl (Zpos mx) s
               | Zneg _ => 0
               end).
    assert (Hm' : m' = Zpos mx * 2 ^ s).
    { subst m'. destruct s as [| p | p] eqn:Hseq; [lia | | lia].
      apply Z.shiftl_mul_pow2. lia. }
    pose proof (Z_div_mod m' (Zpos my) ltac:(lia)) as Hdiv.
    destruct (Z.div_eucl m' (Zpos my)) as [q r]. destruct Hdiv as [Hqr Hr].
    assert (Hpow : 0 < 2 ^ s) by (apply Z.pow_pos_nonneg; lia).
    assert (Hq : 0 <= q) by nia.
    set (z := ((IZR q + IZR r / IZR (Zpos my)) * p2 e')%R).
    assert (Hquot : (SF2R (S754_finite sx mx ex) / SF2R (S754_finite sy my ey)
                     = sgn (xorb sx sy) * z)%R).
    { subst z. cbn [SF2R]. fold (sgn sx) (sgn sy). rewrite sgn_xorb.
      assert (Hmy : (IZR (Zpos my) <> 0)%R) by (apply not_0_IZR; lia).
      assert (Hey : (p2 ey <> 0)%R) by (pose proof (p2_pos ey); lra).
      assert (Hsy : (sgn sy <> 0)%R) by (destruct sy; cbn; lra).
      assert (Hex : (p2 ex = p2 s * p2 e' * p2 ey)%R).
      { rewrite <- !p2_add. f_equal. subst s. lia. }
      assert (Hnum : (IZR (Zpos mx) * p2 s = IZR (Zpos my) * IZR q + IZR r)%R).
      { rewrite p2_nonneg_IZR, <- !mult_IZR, <- plus_IZR by assumption.
        f_equal. lia. }
      rewrite Hex.
      replace (sgn sx * IZR (Zpos mx) * (p2 s * p2 e' * p2 ey))%R
        with (sgn sx * (IZR (Zpos mx) * p2 s) * p2 e' * p2 ey)%R by ring.
      rewrite Hnum. field_simplify_eq; [| repeat split; assumption].
      destruct sy; cbn [sgn]; ring. }
    assert (Hz0 : (0 <= z)%R).
    { subst z. pose proof (p2_pos e').
      destruct (ratio_cases r (Zpos my) ltac:(lia) Hr) as (Ht & _).
      assert (0 <= IZR q)%R by (apply IZR_le; lia). cbv zeta in Ht. nra. }
    rewrite Hquot in *. rewrite Rabs_sgn_mult, Rabs_pos_eq in Hz by assumption.
    destruct (binary_round_aux_error (xorb sx sy) q e' (new_location (Zpos my) r) z)
      as (Hfin & w & Hw & Herr).
    + exact Hq.
    + subst z. apply new_location_inbetween; [lia | exact Hr].
    + rewrite fexp64.
      assert (He'def : e' = Z.min (Z.max (d1 + ex - (d2 + ey) - 53) (-1074)) (ex - ey))
        by reflexivity.
      destruct (Z_le_gt_dec e' (-1074)) as [Hlow | Hhigh]; [lia |].
      (* the quotient has enough digits *)
      assert (HD : 53 <= d1 - d2 + s) by (subst s; lia).
      destruct (Zdigits2_bounds (Zpos mx) ltac:(lia)) as (Hd1 & Hlo1 & _).
      destruct (Zdigits2_bounds (Zpos my) ltac:(lia)) as (Hd2 & _ & Hhi2).
      fold d1 in Hd1, Hlo1. fold d2 in Hd2, Hhi2.
      assert (Hqlo : 2 ^ (d1 - d2 + s - 1) <= q).
      { destruct (Z_le_gt_dec (2 ^ (d1 - d2 + s - 1)) q) as [| Hlt]; [assumption |].
        exfalso.
        assert (Hsplit : 2 ^ (d1 - 1) * 2 ^ s = 2 ^ (d1 - d2 + s - 1) * 2 ^ d2).
        { rewrite <- !Z.pow_add_r by lia. f_equal. lia. }
        assert (0 < 2 ^ (d1 - d2 + s - 1)) by (apply Z.pow_pos_nonneg; lia).
        assert (0 < 2 ^ d2) by (apply Z.pow_pos_nonneg; lia).
        nia. }
      pose proof (Zdigits2_ge q (d1 - d2 + s - 1) ltac:(lia) Hqlo).
      lia.
    + exact Hz.
    + split; [exact Hfin |]. rewrite Hw. unfold ulp_bound.
      rewrite Rabs_sgn_mult, (Rabs_pos_eq z) by assumption.
      replace (sgn (xorb sx sy) * w - sgn (xorb sx sy) * z)%R
        with (sgn (xorb sx sy) * (w - z))%R by ring.
      rewrite Rabs_sgn_mult. exact Herr.
Qed.

(** *** primitive floats *)

Lemma is_nan_Prim2SF f :
  is_nan f = match Prim2SF f with S754_nan => true | _ => false end.
Proof.
  unfold is_nan. rewrite FloatAxioms.eqb_spec. unfold SFeqb.
  destruct (Prim2SF f) as [s | s | | s m e]; cbn [SFcompare]; try reflexivity.
  - now destruct s.
  - rewrite Z.compare_refl, Pos.compare_cont_refl. now destruct s.
Qed.

Lemma is_infinity_Prim2SF f :
  is_infinity f = match Prim2SF f with S754_infinity _ => true | _ => false end.
Proof.
  unfold is_infinity. rewrite FloatAxioms.eqb_spec, abs_spec.
  change (Prim2SF infinity) with (S754_infinity false).
  now destruct (Prim2SF f) as [s | s | | s m e].
Qed.

Lemma is_finite_float_SF f : is_finite_float f = SFfinite (Prim2SF f).
Proof.
  unfold is_finite_float. rewrite is_nan_Prim2SF, is_infinity_Prim2SF.
  now destruct (Prim2SF f).
Qed.

Lemma Rabs_le_inv a b : (Rabs a <= b)%R -> (- b <= a <= b)%R.
Proof. unfold Rabs. destruct (Rcase_abs a); lra. Qed.

Lemma ulp_bound_le z B :
  (Rabs z <= B)%R -> (ulp_bound z <= p2 (-53) * B + p2 (-1075))%R.
Proof.
  intros Hz. unfold ulp_bound. pose proof (p2_pos (-53)). nra.
Qed.

Section Operations.
Variables (a b : float) (B : R).
Hypothesis Ha : is_finite_float a = true.
Hypothesis Hb : is_finite_float b = true.
Hypothesis HB : (B < p2 1023)%R.

Lemma add_error :
  (Rabs (B2R a + B2R b) <= B)%R ->
  is_finite_float (a + b) = true
  /\ (Rabs (B2R (a + b) - (B2R a + B2R b)) <= p2 (-53) * B + p2 (-1075))%R.
Proof using Ha Hb HB.
  intros Hz. rewrite is_finite_float_SF in *. unfold B2R. rewrite add_spec.
  destruct (SFadd_error (Prim2SF a) (Prim2SF b) Ha Hb) as [Hfin Herr].
  - unfold B2R in Hz. lra.
  - split; [exact Hfin |]. apply ulp_bound_le in Hz. unfold B2R in Hz.
    unfold SF64add. lra.
Qed.

Lemma sub_error :
  (Rabs (B2R a - B2R b) <= B)%R ->
  is_finite_float (a - b) = true
  /\ (Rabs (B2R (a - b) - (B2R a - B2R b)) <= p2 (-53) * B + p2 (-1075))%R.
Proof using Ha Hb HB.
  intros Hz. rewrite is_finite_float_SF in *. unfold B2R. rewrite sub_spec.
  destruct (SFsub_error (Prim2SF a) (Prim2SF b) Ha Hb) as [Hfin Herr].
  - unfold B2R in Hz. lra.
  - split; [exact Hfin |]. apply ulp_bound_le in Hz. unfold B2R in Hz.
    unfold SF64sub. lra.
Qed.

Lemma mul_error :
  (Rabs (B2R a * B2R b) <= B)%R ->
  is_finite_float (a * b) = true
  /\ (Rabs (B2R (a * b) - B2R a * B2R b) <= p2 (-53) * B + p2 (-1075))%R.
Proof using Ha Hb HB.
  intros Hz. rewrite is_finite_float_SF in *. unfold B2R. rewrite mul_spec.
  destruct (SFmul_error (Prim2SF a) (Prim2SF b) (Prim2SF_valid a)
              (Prim2SF_valid b) Ha Hb) as [Hfin Herr].
  - unfold B2R in Hz. lra.
  - split; [exact Hfin |]. apply ulp_bound_le in Hz. unfold B2R in Hz.
    unfold SF64mul. lra.
Qed.

Lemma div_error :
  (exists s m e, Prim2SF b = S754_finite s m e) ->
  (Rabs (B2R a / B2R b) <= B)%R ->
  is_finite_float (a / b) = true
  /\ (Rabs (B2R (a / b) - B2R a / B2R b) <= p2 (-53) * B + p2 (-1075))%R.
Proof using Ha Hb HB.
  intros (s & m & e & Hbe) Hz. rewrite is_finite_float_SF in *.
  unfold B2R in *. rewrite div_spec. rewrite Hbe in *.
  destruct (SFdiv_error (Prim2SF a) s m e Ha) as [Hfin Herr].
  - cbv zeta. lra.
  - split; [exact Hfin |]. apply ulp_bound_le in Hz.
    unfold SF64div. cbv zeta in Herr. lra.
Qed.

End Operations.

Lemma p2_neg_IZR n : 0 <= n -> p2 (- n) = (/ IZR (2 ^ n))%R.
Proof.
  intros Hn. rewrite <- p2_nonneg_IZR by assumption.
  pose proof (p2_pos n). apply Rmult_eq_reg_r with (p2 n); [| lra].
  rewrite <- p2_add, Rinv_l by lra. now replace (- n + n) with 0 by lia.
Qed.

Lemma B2R_finite f s m e :
  Prim2SF f = S754_finite s m e -> 0 <= - e ->
  B2R f = (sgn s * IZR (Zpos m) / IZR (2 ^ (- e)))%R.
Proof.
  intros Hf He. unfold B2R. rewrite Hf. cbn [SF2R]. fold (sgn s).
  replace (p2 e) with (/ IZR (2 ^ (- e)))%R; [reflexivity |].
  rewrite <- p2_neg_IZR by assumption. f_equal. lia.
Qed.

Lemma B2R_273_15 : B2R 273.15%float = (4805305618032230 / 17592186044416)%R.
Proof.
  rewrite (B2R_finite _ false 4805305618032230 (-44)); [| reflexivity | lia].
  cbn [sgn]. change (2 ^ (- -44)) with 17592186044416. lra.
Qed.

Lemma B2R_459_67 : B2R 459.67%float = (8086600159036703 / 17592186044416)%R.
Proof.
  rewrite (B2R_finite _ false 8086600159036703 (-44)); [| reflexivity | lia].
  cbn [sgn]. change (2 ^ (- -44)) with 17592186044416. lra.
Qed.

Lemma B2R_9 : B2R 9%float = 9%R.
Proof.
  rewrite (B2R_finite _ false 5066549580791808 (-49)); [| reflexivity | lia].
  cbn [sgn]. change (2 ^ (- -49)) with 562949953421312. lra.
Qed.

Lemma B2R_5 : B2R 5%float = 5%R.
Proof.
  rewrite (B2R_finite _ false 5629499534213120 (-50)); [| reflexivity | lia].
  cbn [sgn]. change (2 ^ (- -50)) with 1125899906842624. lra.
Qed.

Lemma finite_constants :
  is_finite_float 273.15%float = true /\ is_finite_float 459.67%float = true
  /\ is_finite_float 9%float = true /\ is_finite_float 5%float = true.
Proof. repeat split; reflexivity. Qed.

Theorem round_trip_error (v : float) :
  is_finite_float v = true ->
  (Rabs (B2R v) <= 1e306)%R ->
  is_finite_float (f2c (c2f v)) = true
  /\ (Rabs (B2R (f2c (c2f v)) - B2R v) <= 1e-15 * Rabs (B2R v) + 3e-13)%R.
Proof.
  intros Hv HV.
  destruct finite_constants as (F1 & F2 & F9 & F5).
  assert (Hu : p2 (-53) = (/ IZR (2 ^ 53))%R) by (apply (p2_neg_IZR 53); lia).
  assert (Heta : p2 (-1075) = (/ IZR (2 ^ 1075))%R) by (apply (p2_neg_IZR 1075); lia).
  assert (Hmax : p2 1023 = IZR (2 ^ 1023)) by (apply p2_nonneg_IZR; lia).
  pose proof B2R_273_15 as C1. pose proof B2R_459_67 as C2.
  pose proof B2R_9 as C9. pose proof B2R_5 as C5.
  remember (Rabs (B2R v)) as V eqn:HVdef.
  assert (Hx : (- V <= B2R v <= V)%R) by (apply Rabs_le_inv; lra).
  assert (HV0 : (0 <= V)%R) by lra.
  clear HVdef.
  unfold f2c, c2f.
  remember (V + 274)%R as B1 eqn:HB1.
  (* v + 273.15 *)
  destruct (add_error v 273.15%float B1 Hv F1) as [G1 H1];
    [lra | apply Rabs_le; lra |].
  apply Rabs_le_inv in H1. rewrite Hu, Heta in H1.
  set (a1 := (v + 273.15)%float) in *.
  (* * 9 *)
  destruct (mul_error a1 9%float (9.001 * B1) G1 F9) as [G2 H2];
    [lra | rewrite C9; apply Rabs_le; lra |].
  apply Rabs_le_inv in H2. rewrite Hu, Heta, C9 in H2.
  set (a2 := (a1 * 9)%float) in *.
  (* / 5 *)
  destruct (div_error a2 5%float (1.81 * B1) G2 F5) as [G3 H3];
    [lra | eexists _, _, _; reflexivity | rewrite C5; apply Rabs_le; lra |].
  apply Rabs_le_inv in H3. rewrite Hu, Heta, C5 in H3.
  set (a3 := (a2 / 5)%float) in *.
  (* - 459.67 *)
  destruct (sub_error a3 459.67%float (1.81 * B1 + 460) G3 F2) as [G4 H4];
    [lra | apply Rabs_le; lra |].
  apply Rabs_le_inv in H4. rewrite Hu, Heta in H4.
  set (a4 := (a3 - 459.67)%float) in *.
  (* + 459.67 *)
  destruct (add_error a4 459.67%float (1.81 * B1) G4 F2) as [G5 H5];
    [lra | apply Rabs_le; lra |].
  apply Rabs_le_inv in H5. rewrite Hu, Heta in H5.
  set (b1 := (a4 + 459.67)%float) in *.
  (* * 5 *)
  destruct (mul_error b1 5%float (9.06 * B1) G5 F5) as [G6 H6];
    [lra | rewrite C5; apply Rabs_le; lra |].
  apply Rabs_le_inv in H6. rewrite Hu, Heta, C5 in H6.
  set (b2 := (b1 * 5)%float) in *.
  (* / 9 *)
  destruct (div_error b2 9%float (1.01 * B1) G6 F9) as [G7 H7];
    [lra | eexists _, _, _; reflexivity | rewrite C9; apply Rabs_le; lra |].
  apply Rabs_le_inv in H7. rewrite Hu, Heta, C9 in H7.
  set (b3 := (b2 / 9)%float) in *.
  (* - 273.15 *)
  destruct (sub_error b3 273.15%float (1.001 * V + 1) G7 F1) as [G8 H8];
    [lra | apply Rabs_le; lra |].
  apply Rabs_le_inv in H8. rewrite Hu, Heta in H8.
  split; [exact G8 |].
  apply Rabs_le. lra.
Qed.

(** ** The conversion engine *)

Lemma str_in_In (x : string) (xs : list string) :
  str_in x xs = true <-> In x xs.
Proof.
  unfold str_in. rewrite existsb_exists. split.
  - intros [y [Hy Heq]]. apply String.eqb_eq in Heq. now subst.
  - intros Hx. exists x. split; [assumption | apply String.eqb_refl].
Qed.

Lemma temperature_units_cases (u : string) :
  In u temperature_units ->
  u = "celsius" \/ u = "fahrenheit" \/ u = "kelvin" \/ u = "rankine".
Proof. cbn. intuition. Qed.

Section EngineFacts.
Context {F : Type} `{PyFloatLaws F}.
Variable pint_convert : pynum F -> string -> string -> option F.

Ltac run_binop :=
  cbv [lift2 py_mul py_truediv binop int var as_int to_float
       mbind mret exc_bind exc_ret].

Lemma times_int_5 (x : F) :
  (var (PyFloat x) * int 5)%py = mret (PyFloat (fmul x (literal 5))).
Proof. run_binop. rewrite of_int_5. reflexivity. Qed.

Lemma times_int_9 (x : F) :
  (var (PyFloat x) * int 9)%py = mret (PyFloat (fmul x (literal 9))).
Proof. run_binop. rewrite of_int_9. reflexivity. Qed.

Lemma over_int_5 (x : F) :
  (var (PyFloat x) / int 5)%py = mret (PyFloat (fdiv x (literal 5))).
Proof.
  run_binop. rewrite of_int_5. cbv [mret exc_ret].
  rewrite nonzero_5. reflexivity.
Qed.

Lemma over_int_9 (x : F) :
  (var (PyFloat x) / int 9)%py = mret (PyFloat (fdiv x (literal 9))).
Proof.
  run_binop. rewrite of_int_9. cbv [mret exc_ret].
  rewrite nonzero_9. reflexivity.
Qed.

(** the first [if] chain of the temperature branch, on a float *)
Lemma normalize_float (v : F) (from_unit : string) :
  In from_unit temperature_units ->
  exists k, spec_normalize from_unit v = Some k /\
    (if (from_unit =? "celsius")%string then
       var (PyFloat v) + flt 273.15
     else if (from_unit =? "fahrenheit")%string then
       (var (PyFloat v) + flt 459.67) * int 5 / int 9
     else if (from_unit =? "rankine")%string then
       var (PyFloat v) * int 5 / int 9
     else
       var (PyFloat v))%py = mret (PyFloat k).
Proof.
  intros Hin. apply temperature_units_cases in Hin.
  destruct Hin as [-> | [-> | [-> | ->]]];
    cbn [String.eqb Ascii.eqb Bool.eqb spec_normalize];
    eexists; (split; [reflexivity |]).
  - reflexivity.
  - change (var (PyFloat v) + flt 459.67)%py
      with (var (PyFloat (fadd v (literal 459.67)))).
    rewrite times_int_5. apply over_int_9.
  - reflexivity.
  - rewrite times_int_5. apply over_int_9.
Qed.

(** the second [if] chain: the formula of the target unit, and the
    kelvin value itself for every unit that has none *)
Lemma denormalize_float (k : F) (to_unit : string) :
  (if (to_unit =? "celsius")%string then
     var (PyFloat k) - flt 273.15
   else if (to_unit =? "fahrenheit")%string then
     var (PyFloat k) * int 9 / int 5 - flt 459.67
   else if (to_unit =? "rankine")%string then
     var (PyFloat k) * int 9 / int 5
   else
     var (PyFloat k))%py
  = mret (PyFloat (default k (spec_denormalize to_unit k))).
Proof.
  unfold spec_denormalize.
  destruct (to_unit =? "celsius")%string; [reflexivity |].
  destruct (to_unit =? "fahrenheit")%string.
  - rewrite times_int_9.
    change (mret (PyFloat (fmul k (literal 9))))
      with (var (PyFloat (fmul k (literal 9)))).
    rewrite over_int_5. reflexivity.
  - destruct (to_unit =? "rankine")%string.
    + rewrite times_int_9. apply over_int_5.
    + destruct (to_unit =? "kelvin")%string; reflexivity.
Qed.

(** A float in a temperature unit is never rejected: the result is the
    kelvin value, put through the target unit's formula when there is
    one. *)
Lemma convert_units_temperature (v : F) (from_unit to_unit : string) :
  In from_unit temperature_units ->
  exists k, spec_normalize from_unit v = Some k /\
    convert_units pint_convert (Num (PyFloat v)) from_unit to_unit
    = Returned (PyFloat (default k (spec_denormalize to_unit k))).
Proof.
  intros Hin. destruct (normalize_float v from_unit Hin) as (k & Hk & Hrun).
  exists k. split; [assumption |].
  unfold convert_units.
  replace (str_in from_unit ["celsius"; "fahrenheit"; "kelvin"; "rankine"])
    with true by (symmetry; now apply str_in_In).
  rewrite Hrun. cbn [mbind exc_bind mret exc_ret].
  rewrite denormalize_float. reflexivity.
Qed.

(** Outside the temperature units the answer is pint's: its magnitude,
    or the rejection of the pair when pint raises. *)
Lemma convert_units_pint (n : pynum F) (from_unit to_unit : string) :
  ~ In from_unit temperature_units ->
  convert_units pint_convert (Num n) from_unit to_unit
  = match pint_convert n from_unit to_unit with
    | Some magnitude => Returned (PyFloat magnitude)
    | None => Rejected ("Invalid unit combination: " +:+ from_unit
                        +:+ " to " +:+ to_unit)
    end.
Proof.
  intros Hout. unfold convert_units.
  replace (str_in from_unit ["celsius"; "fahrenheit"; "kelvin"; "rankine"])
    with false; [reflexivity |].
  symmetry. apply not_true_is_false. now rewrite str_in_In.
Qed.

End EngineFacts.

(** The decimal literals of the program are the floats Rocq reads from the
    same digits. *)
Lemma literal_values :
  Binary64.literal 273.15 = 273.15%float
  /\ Binary64.literal 459.67 = 459.67%float.
Proof. split; vm_compute; reflexivity. Qed.

(** Int and bool arguments: ints stay exact until a float or a division
    comes in, and an int too large for a float ends in the outer handler. *)
Lemma int_arguments_examples
    (pint_convert : pynum float -> string -> string -> option float) :
  convert_units pint_convert (Num (PyInt 32)) "kelvin" "rankine"
  = Returned (PyFloat 57.6%float)
  /\ convert_units pint_convert (Num (PyInt 300)) "kelvin" "kelvin"
     = Returned (PyInt 300)
  /\ convert_units pint_convert (Num (PyBool true)) "celsius" "kelvin"
     = Returned (PyFloat 274.15%float)
  /\ convert_units pint_convert (Num (PyInt (10 ^ 400))) "celsius" "kelvin"
     = Rejected "Conversion Error: int too large to convert to float"
  /\ convert_units pint_convert (Num (PyInt (10 ^ 400))) "kelvin" "rankine"
     = Rejected "Conversion Error: integer division result too large for a float".
Proof. repeat split; vm_compute; reflexivity. Qed.

(** C1. For every float [v] (finite or not) and all units [from_unit],
    [to_unit] among celsius, fahrenheit, kelvin and rankine,
    [convert_units] returns the value obtained by normalizing [v] to kelvin
    with the formula of [from_unit] and then denormalizing with the formula
    of [to_unit]. *)
Theorem convert_units_composes_formulas
    (pint_convert : pynum float -> string -> string -> option float)
    (v : float) (from_unit to_unit : string) :
  In from_unit temperature_units ->
  In to_unit temperature_units ->
  exists r, spec_convert from_unit to_unit v = Some r /\
    convert_units pint_convert (Num (PyFloat v)) from_unit to_unit
    = Returned (PyFloat r).
Proof.
  intros Hfrom Hto.
  destruct (convert_units_temperature pint_convert v from_unit to_unit Hfrom)
    as (k & Hk & Hrun).
  assert (Hden : exists r, spec_denormalize to_unit k = Some r).
  { apply temperature_units_cases in Hto.
    destruct Hto as [-> | [-> | [-> | ->]]]; eexists; reflexivity. }
  destruct Hden as [r Hr]. exists r. split.
  - unfold spec_convert. rewrite Hk. exact Hr.
  - rewrite Hrun, Hr. reflexivity.
Qed.

Lemma convert_units_composes_formulas_witness :
  In "fahrenheit" temperature_units /\ In "rankine" temperature_units /\
  exists r, spec_convert "fahrenheit" "rankine" 98.6%float = Some r /\
    convert_units empty_registry (Num (PyFloat 98.6%float)) "fahrenheit" "rankine"
    = Returned (PyFloat r).
Proof.
  assert (Hf : In "fahrenheit" temperature_units) by (cbn; tauto).
  assert (Hr : In "rankine" temperature_units) by (cbn; tauto).
  split; [exact Hf |]. split; [exact Hr |].
  exact (convert_units_composes_formulas empty_registry 98.6%float
           "fahrenheit" "rankine" Hf Hr).
Defined.

(** C2, at a failing input.  A celsius value asked for in kilograms is not
    rejected: the temperature branch never looks at what [to_unit] is once
    it is none of celsius, fahrenheit and rankine, and returns the kelvin
    value 274.15, whatever pint would have said about the pair. *)
Theorem celsius_to_kilograms_is_not_rejected
    (pint_convert : pynum float -> string -> string -> option float) :
  convert_units pint_convert (Num (PyFloat 1%float)) "celsius" "kilograms"
  = Returned (PyFloat 274.15%float).
Proof. vm_compute. reflexivity. Qed.

(** The sibling path does reject: from meters, a pair that pint refuses is
    reported as an invalid unit combination and nothing is returned. *)
Lemma meters_to_kilograms_is_rejected
    (pint_convert : pynum float -> string -> string -> option float)
    (n : pynum float) :
  pint_convert n "meters" "kilograms" = None ->
  convert_units pint_convert (Num n) "meters" "kilograms"
  = Rejected "Invalid unit combination: meters to kilograms".
Proof.
  intros Hraise. rewrite convert_units_pint.
  - rewrite Hraise. reflexivity.
  - cbn. intuition discriminate.
Qed.

(** C3, as amended.  [convert_units] rejects with "Please enter a valid
    number" exactly the values that are neither int nor float, whatever the
    units and without consulting pint.  An infinite or NaN float is a float:
    in a temperature unit it is converted by the same formulas as every
    other float, the formula of the source unit giving the kelvin value and
    the formula of the target unit the float returned;
    [convert_units(inf, "celsius", "kelvin")] is inf. *)
Theorem validation_rejects_exactly_non_numbers
    (pint_convert : pynum float -> string -> string -> option float)
    (value : pyval float) (from_unit to_unit : string) :
  (is_number value = false <->
   convert_units pint_convert value from_unit to_unit
   = Rejected "Please enter a valid number")
  /\ (forall f : float,
        In from_unit temperature_units ->
        exists k,
          spec_normalize from_unit f = Some k
          /\ convert_units pint_convert (Num (PyFloat f)) from_unit to_unit
             = Returned (PyFloat (default k (spec_denormalize to_unit k))))
  /\ convert_units pint_convert (Num (PyFloat infinity)) "celsius" "kelvin"
     = Returned (PyFloat infinity).
Proof.
  split; [| split].
  - split.
    + destruct value; [discriminate | reflexivity | reflexivity].
    + destruct value as [n | s |]; [| reflexivity | reflexivity].
      intros Hrej. exfalso. revert Hrej. unfold convert_units.
      destruct (str_in _ _).
      * match goal with |- context [match ?b with inl _ => _ | inr _ => _ end] =>
          destruct b end; cbn; discriminate.
      * destruct (pint_convert _ _ _); cbn; discriminate.
  - intros f Hin.
    exact (convert_units_temperature pint_convert f from_unit to_unit Hin).
  - vm_compute. reflexivity.
Qed.

Lemma validation_rejects_exactly_non_numbers_witness :
  is_number (PyStr "12,5" : pyval float) = false /\
  convert_units empty_registry (PyStr "12,5" : pyval float) "kelvin" "celsius"
  = Rejected "Please enter a valid number" /\
  In "kelvin" temperature_units /\
  exists k,
    spec_normalize "kelvin" infinity = Some k
    /\ convert_units empty_registry (Num (PyFloat infinity)) "kelvin" "celsius"
       = Returned (PyFloat (default k (spec_denormalize "celsius" k))).
Proof.
  assert (Hk : In "kelvin" temperature_units) by (cbn; tauto).
  destruct (validation_rejects_exactly_non_numbers empty_registry
              (PyStr "12,5") "kelvin" "celsius") as (Hrej & Hconv & _).
  split; [reflexivity |].
  split; [apply Hrej; reflexivity |].
  split; [exact Hk |].
  exact (Hconv infinity Hk).
Defined.

(** C3 as stated fails: an infinity and a NaN are not finite numbers, and
    both are converted and returned. *)
Lemma non_finite_floats_are_converted :
  is_finite_number (Num (PyFloat infinity)) = false /\
  convert_units empty_registry (Num (PyFloat infinity)) "celsius" "kelvin"
  = Returned (PyFloat infinity) /\
  is_finite_number (Num (PyFloat nan)) = false /\
  convert_units empty_registry (Num (PyFloat nan)) "fahrenheit" "celsius"
  = Returned (PyFloat nan).
Proof. repeat split; vm_compute; reflexivity. Qed.

(** C5, as amended.  [convert_units(100, "celsius", "kelvin")] is 373.15
    and [convert_units(32, "fahrenheit", "celsius")] is 0, for the int and
    for the float argument; [convert_units(0, "celsius", "fahrenheit")] is
    the float 31.999999999999943, within 1e-13 of 32.  Over exact rational
    arithmetic the three results are 32, 373.15 and 0. *)
Theorem known_fixed_points
    (pint_convert : pynum float -> string -> string -> option float)
    (exact_convert : pynum Qc -> string -> string -> option Qc) :
  (convert_units pint_convert (Num (PyFloat 0%float)) "celsius" "fahrenheit"
   = Returned (PyFloat 31.999999999999943%float) /\
   convert_units pint_convert (Num (PyInt 0)) "celsius" "fahrenheit"
   = Returned (PyFloat 31.999999999999943%float) /\
   within 1e-13%float 31.999999999999943%float 32%float = true)
  /\ (convert_units pint_convert (Num (PyFloat 100%float)) "celsius" "kelvin"
      = Returned (PyFloat 373.15%float) /\
      convert_units pint_convert (Num (PyInt 100)) "celsius" "kelvin"
      = Returned (PyFloat 373.15%float))
  /\ (convert_units pint_convert (Num (PyFloat 32%float)) "fahrenheit" "celsius"
      = Returned (PyFloat 0%float) /\
      convert_units pint_convert (Num (PyInt 32)) "fahrenheit" "celsius"
      = Returned (PyFloat 0%float))
  /\ (convert_units exact_convert (Num (PyFloat (Q2Qc 0))) "celsius" "fahrenheit"
      = Returned (PyFloat (Q2Qc 32)) /\
      convert_units exact_convert (Num (PyFloat (Q2Qc 100))) "celsius" "kelvin"
      = Returned (PyFloat (Q2Qc 373.15)) /\
      convert_units exact_convert (Num (PyFloat (Q2Qc 32))) "fahrenheit" "celsius"
      = Returned (PyFloat (Q2Qc 0))).
Proof.
  repeat split; try (vm_compute; reflexivity);
    cbv [convert_units str_in existsb String.eqb Ascii.eqb Bool.eqb orb];
    cbn; do 2 f_equal; apply Qc_is_canon; reflexivity.
Qed.

(** C5 as stated fails in its first equation: the float that
    [convert_units(0, "celsius", "fahrenheit")] returns is not 32. *)
Lemma celsius_zero_is_not_exactly_32 :
  convert_units empty_registry (Num (PyFloat 0%float)) "celsius" "fahrenheit"
  <> Returned (PyFloat 32%float).
Proof.
  intros Heq.
  apply (f_equal (fun o => match o with
                           | Returned (PyFloat x) => PrimFloat.eqb x 32%float
                           | _ => false
                           end)) in Heq.
  vm_compute in Heq. discriminate.
Qed.

(** on floats the round trip is the two float expressions, one after the
    other *)
Lemma round_trip_float
    (pint_convert : pynum float -> string -> string -> option float) (v : float) :
  round_trip pint_convert v = Returned (PyFloat (f2c (c2f v))).
Proof. reflexivity. Qed.

(** C6, as amended.  Over exact rational arithmetic, converting any [v]
    from celsius to fahrenheit and the result back to celsius returns [v]
    itself.  Over floats, for every finite [v] with [|v| <= 1e306] the
    round trip returns a finite float whose distance to [v] is at most
    [1e-15 * |v| + 3e-13]; nothing is stated for larger [v]. *)
Theorem celsius_round_trip
    (exact_convert : pynum Qc -> string -> string -> option Qc)
    (pint_convert : pynum float -> string -> string -> option float) :
  (forall v : Qc, round_trip exact_convert v = Returned (PyFloat v))
  /\ (forall v : float,
        is_finite_float v = true ->
        (Rabs (B2R v) <= 1e306)%R ->
        exists r,
          round_trip pint_convert v = Returned (PyFloat r)
          /\ is_finite_float r = true
          /\ (Rabs (B2R r - B2R v) <= 1e-15 * Rabs (B2R v) + 3e-13)%R).
Proof.
  split.
  - intros v. unfold round_trip.
    destruct (convert_units_temperature exact_convert v "celsius" "fahrenheit")
      as (k & Hk & ->); [cbn; tauto |].
    cbn [as_value].
    destruct (convert_units_temperature exact_convert
                (default k (spec_denormalize "fahrenheit" k))
                "fahrenheit" "celsius") as (k' & Hk' & ->); [cbn; tauto |].
    cbn in Hk, Hk'. injection Hk as <-. injection Hk' as <-.
    cbn. do 2 f_equal. field. split; intros E; discriminate E.
  - intros v Hfin Hbound. exists (f2c (c2f v)).
    split; [apply round_trip_float |].
    now apply round_trip_error.
Qed.

Lemma celsius_round_trip_witness :
  round_trip (empty_registry (F:=Qc)) (Q2Qc 36.6) = Returned (PyFloat (Q2Qc 36.6))
  /\ is_finite_float 36.6%float = true
  /\ (Rabs (B2R 36.6%float) <= 1e306)%R
  /\ exists r,
       round_trip empty_registry 36.6%float = Returned (PyFloat r)
       /\ is_finite_float r = true
       /\ (Rabs (B2R r - B2R 36.6%float)
           <= 1e-15 * Rabs (B2R 36.6%float) + 3e-13)%R.
Proof.
  destruct (celsius_round_trip empty_registry empty_registry) as [Hexact Hfloat].
  assert (Hfin : is_finite_float 36.6%float = true) by reflexivity.
  assert (Hsmall : (Rabs (B2R 36.6%float) <= 1e306)%R).
  { rewrite (B2R_finite _ false 5150992073805005 (-47)); [| reflexivity | lia].
    cbn [sgn]. change (2 ^ (- -47)) with 140737488355328.
    apply Rabs_le. lra. }
  split; [exact (Hexact (Q2Qc 36.6)) |].
  split; [exact Hfin |]. split; [exact Hsmall |].
  exact (Hfloat 36.6%float Hfin Hsmall).
Defined.

(** C6 as stated fails over floats: 1e308 is finite, its conversion to
    fahrenheit overflows, and the round trip returns infinity, which is
    within no tolerance of 1e308. *)
Lemma celsius_round_trip_overflows :
  is_finite_float 1e308%float = true /\
  round_trip empty_registry 1e308%float = Returned (PyFloat infinity) /\
  forall tol : float, within tol infinity 1e308%float = false.
Proof.
  split; [vm_compute; reflexivity |].
  split; [vm_compute; reflexivity |].
  intros tol. reflexivity.
Qed.

(** C10.  When [from_unit] is celsius, fahrenheit, kelvin or rankine and
    [to_unit] is any string other than "celsius", "fahrenheit" and
    "rankine", [convert_units] does not reject a float: it returns the
    value normalized to kelvin, as it does for "kelvin".
    [convert_units(0, "celsius", "meters")] is 273.15. *)
Theorem temperature_source_ignores_unknown_target
    (pint_convert : pynum float -> string -> string -> option float) :
  (forall (v : float) (from_unit to_unit : string),
     In from_unit temperature_units ->
     to_unit <> "celsius" -> to_unit <> "fahrenheit" -> to_unit <> "rankine" ->
     exists k, spec_normalize from_unit v = Some k /\
       convert_units pint_convert (Num (PyFloat v)) from_unit to_unit
       = Returned (PyFloat k) /\
       convert_units pint_convert (Num (PyFloat v)) from_unit "kelvin"
       = Returned (PyFloat k))
  /\ convert_units pint_convert (Num (PyFloat 0%float)) "celsius" "meters"
     = Returned (PyFloat 273.15%float)
  /\ convert_units pint_convert (Num (PyInt 0)) "celsius" "meters"
     = Returned (PyFloat 273.15%float).
Proof.
  split; [| split; vm_compute; reflexivity].
  intros v from_unit to_unit Hfrom Hc Hf Hr.
  destruct (convert_units_temperature pint_convert v from_unit to_unit Hfrom)
    as (k & Hk & Hrun).
  destruct (convert_units_temperature pint_convert v from_unit "kelvin" Hfrom)
    as (k' & Hk' & Hrun').
  rewrite Hk in Hk'. injection Hk' as <-.
  exists k. split; [exact Hk |]. split; [| exact Hrun'].
  rewrite Hrun. unfold spec_denormalize.
  apply String.eqb_neq in Hc, Hf, Hr. rewrite Hc, Hf, Hr.
  destruct (to_unit =? "kelvin")%string; reflexivity.
Qed.

Lemma temperature_source_ignores_unknown_target_witness :
  In "fahrenheit" temperature_units /\
  "USD" <> "celsius" /\ "USD" <> "fahrenheit" /\ "USD" <> "rankine" /\
  exists k, spec_normalize "fahrenheit" 212%float = Some k /\
    convert_units empty_registry (Num (PyFloat 212%float)) "fahrenheit" "USD"
    = Returned (PyFloat k) /\
    convert_units empty_registry (Num (PyFloat 212%float)) "fahrenheit" "kelvin"
    = Returned (PyFloat k).
Proof.
  assert (Hin : In "fahrenheit" temperature_units) by (cbn; tauto).
  assert (Hc : "USD" <> "celsius") by discriminate.
  assert (Hf : "USD" <> "fahrenheit") by discriminate.
  assert (Hr : "USD" <> "rankine") by discriminate.
  repeat (split; [assumption |]).
  exact (proj1 (temperature_source_ignores_unknown_target empty_registry)
           212%float "fahrenheit" "USD" Hin Hc Hf Hr).
Defined.

(** ** Session history and favorites *)

Section SessionFacts.
Context {F : Type}.
Implicit Types (st : session_state F) (it : history_item F).

Lemma history_of_save now v f t r st :
  history_of (save_conversion_history now v f t r st)
  = let h := {| timestamp := now; value := v; from_unit := f; to_unit := t; result := r |} :: history_of st in
    if (10 <? length h)%nat then removelast h else h.
Proof.
  unfold save_conversion_history, history_of. cbn.
  destruct (conversion_history st); reflexivity.
Qed.

Lemma favorites_of_save now v f t r st :
  favorites_of (save_conversion_history now v f t r st) = favorites_of st.
Proof. reflexivity. Qed.

Lemma history_of_toggle f t st :
  history_of (toggle_favorite f t st) = history_of st.
Proof. reflexivity. Qed.

Lemma favorites_of_toggle f t st :
  favorites_of (toggle_favorite f t st)
  = let key := f +:+ "->" +:+ t in
    if bool_decide (key ∈ favorites_of st)
    then favorites_of st ∖ {[key]} else favorites_of st ∪ {[key]}.
Proof.
  unfold toggle_favorite, favorites_of. cbn.
  destruct (favorites st); reflexivity.
Qed.

Lemma removelast_firstn_length {A} (l : list A) :
  l <> [] -> removelast l = firstn (length l - 1) l.
Proof.
  induction l as [| x l IH]; [congruence |]. intros _.
  destruct l as [| y l]; [reflexivity |].
  change (removelast (x :: y :: l)) with (x :: removelast (y :: l)).
  rewrite IH by discriminate. cbn [length]. 
  replace (S (S (length l)) - 1)%nat with (S (S (length l) - 1)) by lia.
  reflexivity.
Qed.

Lemma save_is_firstn now v f t r st :
  (length (history_of st) <= 10)%nat ->
  history_of (save_conversion_history now v f t r st)
  = firstn 10 ({| timestamp := now; value := v; from_unit := f; to_unit := t; result := r |} :: history_of st).
Proof.
  intros Hlen. rewrite history_of_save. cbv zeta.
  set (h := _ :: history_of st).
  assert (Hh : length h = S (length (history_of st))) by reflexivity.
  destruct (Nat.ltb_spec 10 (length h)) as [Hgt | Hle].
  - rewrite removelast_firstn_length by (subst h; discriminate).
    f_equal. lia.
  - symmetry. apply firstn_all2. lia.
Qed.

Lemma history_bound_run (a : action F) st :
  (length (history_of st) <= 10)%nat ->
  (length (history_of (run a st)) <= 10)%nat.
Proof.
  intros Hlen. destruct a as [now v f t r | f t]; cbn [run].
  - rewrite save_is_firstn by assumption. rewrite length_firstn. lia.
  - rewrite history_of_toggle. assumption.
Qed.

Lemma history_bound_run_all (acts : list (action F)) st :
  (length (history_of st) <= 10)%nat ->
  (length (history_of (run_all acts st)) <= 10)%nat.
Proof.
  revert st. induction acts as [| a acts IH]; intros st Hlen; [assumption |].
  cbn. apply IH. now apply history_bound_run.
Qed.

Lemma history_bound_reachable st :
  reachable st -> (length (history_of st) <= 10)%nat.
Proof.
  intros [acts ->]. apply history_bound_run_all. cbn. lia.
Qed.

Lemma history_of_saves (items : list (history_item F)) st :
  (length (history_of st) <= 10)%nat ->
  history_of (fold_left (fun st it => save_item it st) items st)
  = firstn 10 (rev items ++ history_of st).
Proof.
  revert st. induction items as [| it items IH]; intros st Hlen.
  - cbn. symmetry. apply firstn_all2. assumption.
  - cbn [fold_left rev]. rewrite IH.
    + unfold save_item. rewrite save_is_firstn by assumption.
      destruct it as [now v f t r]. cbn [timestamp value from_unit to_unit result].
      rewrite <- app_assoc. cbn [app].
      rewrite !firstn_app, firstn_firstn. do 2 f_equal. lia.
    + unfold save_item. rewrite save_is_firstn by assumption.
      rewrite length_firstn. lia.
Qed.

Lemma toggle_member f t st :
  pair_key f t ∈ favorites_of (toggle_favorite f t st)
  <-> pair_key f t ∉ favorites_of st.
Proof.
  rewrite favorites_of_toggle. cbv zeta. fold (pair_key f t).
  destruct (bool_decide_reflect (pair_key f t ∈ favorites_of st)) as [Hin | Hout].
  - rewrite elem_of_difference, elem_of_singleton. tauto.
  - rewrite elem_of_union, elem_of_singleton. tauto.
Qed.

Lemma toggle_other f t st (k : string) :
  k <> pair_key f t ->
  (k ∈ favorites_of (toggle_favorite f t st) <-> k ∈ favorites_of st).
Proof.
  intros Hne. rewrite favorites_of_toggle. cbv zeta. fold (pair_key f t).
  destruct (bool_decide_reflect (pair_key f t ∈ favorites_of st)) as [Hin | Hout].
  - rewrite elem_of_difference, elem_of_singleton. tauto.
  - rewrite elem_of_union, elem_of_singleton. tauto.
Qed.

Lemma toggle_twice f t st :
  favorites_of (toggle_favorite f t (toggle_favorite f t st)) = favorites_of st.
Proof.
  apply set_eq. intros k.
  destruct (decide (k = pair_key f t)) as [-> | Hne].
  - rewrite toggle_member, toggle_member.
    destruct (decide (pair_key f t ∈ favorites_of st)); tauto.
  - now rewrite !toggle_other.
Qed.

Lemma toggle_twice_state f t st favs :
  favorites st = Some favs ->
  toggle_favorite f t (toggle_favorite f t st) = st.
Proof.
  intros Hfav. pose proof (toggle_twice f t st) as Heq.
  destruct st as [h fv]. cbn in Hfav. subst fv.
  unfold toggle_favorite at 1. cbn [conversion_history favorites].
  unfold favorites_of in Heq.
  cbn [toggle_favorite favorites conversion_history default] in *.
  f_equal. f_equal. exact Heq.
Qed.

Lemma member_run_all (k : string) (acts : list (action F)) st :
  k ∈ favorites_of (run_all acts st)
  <-> xorb (bool_decide (k ∈ favorites_of st)) (Nat.odd (toggles k acts)) = true.
Proof.
  revert st. induction acts as [| a acts IH]; intros st.
  - cbn. rewrite xorb_false_r. symmetry. apply bool_decide_eq_true.
  - cbn [run_all fold_left]. fold (run_all acts (run a st)). rewrite IH.
    destruct a as [now v f t r | f t]; cbn [run].
    + rewrite favorites_of_save. reflexivity.
    + unfold toggles. cbn [List.filter]. fold (toggles k acts).
      destruct (bool_decide_reflect (pair_key f t = k)) as [Hk | Hk].
      * subst k. cbn [length]. rewrite Nat.odd_succ, <- Nat.negb_odd.
        assert (Hflip : bool_decide (pair_key f t ∈ favorites_of (toggle_favorite f t st))
                        = negb (bool_decide (pair_key f t ∈ favorites_of st))).
        { pose proof (toggle_member f t st).
          repeat case_bool_decide; cbn; tauto. }
        rewrite Hflip. fold (toggles (pair_key f t) acts).
        clear Hflip IH.
        destruct (bool_decide (pair_key f t ∈ favorites_of st)),
          (Nat.odd (toggles (pair_key f t) acts)); reflexivity.
      * assert (Hsame : bool_decide (k ∈ favorites_of (toggle_favorite f t st))
                        = bool_decide (k ∈ favorites_of st)).
        { apply bool_decide_ext. apply toggle_other. congruence. }
        rewrite Hsame. reflexivity.
Qed.

Lemma run_all_saves (items : list (history_item F)) st :
  run_all (map (fun it => Save (timestamp it) (value it) (from_unit it)
                            (to_unit it) (result it)) items) st
  = fold_left (fun st it => save_item it st) items st.
Proof.
  revert st. induction items as [| it items IH]; intros st; [reflexivity |].
  cbn [map run_all fold_left]. apply IH.
Qed.

End SessionFacts.

(** C4.  In every session reached from a new one the history holds at most
    10 entries.  [save_conversion_history] puts the new entry at the front;
    when 10 entries were already there the back one, and only it, is
    dropped.  After any run of recordings from a new session the history is
    the last 10 recorded entries, newest first; after 15 recordings it has
    length 10 and its first entry is the 15th recorded. *)
Theorem history_is_bounded_and_newest_first {F : Type} :
  (forall st : session_state F,
     reachable st -> (length (history_of st) <= 10)%nat)
  /\ (forall (st : session_state F) now v f t r,
        history_of (save_conversion_history now v f t r st)
        = {| timestamp := now; value := v; from_unit := f; to_unit := t;
             result := r |}
          :: (if (length (history_of st) <? 10)%nat then history_of st
              else removelast (history_of st)))
  /\ (forall items : list (history_item F),
        history_of (fold_left (fun st it => save_item it st) items new_session)
        = firstn 10 (rev items))
  /\ (forall items : list (history_item F),
        length items = 15%nat ->
        let st := fold_left (fun st it => save_item it st) items new_session in
        length (history_of st) = 10%nat
        /\ hd_error (history_of st) = nth_error items 14).
Proof.
  split; [exact history_bound_reachable |].
  split.
  { intros st now v f t r. rewrite history_of_save. cbv zeta.
    cbn [length]. destruct (history_of st) as [| x h]; [reflexivity |].
    change (10 <? S (length (x :: h)))%nat with (9 <? length (x :: h))%nat.
    destruct (Nat.ltb_spec 9 (length (x :: h))),
             (Nat.ltb_spec (length (x :: h)) 10); try lia; reflexivity. }
  assert (Hall : forall items : list (history_item F),
             history_of (fold_left (fun st it => save_item it st) items new_session)
             = firstn 10 (rev items)).
  { intros items. rewrite history_of_saves by (cbn; lia).
    cbn [history_of new_session conversion_history default].
    now rewrite app_nil_r. }
  split; [exact Hall |].
  intros items Hlen st. subst st. rewrite Hall.
  do 16 (destruct items as [| ? items]; try discriminate Hlen).
  split; reflexivity.
Qed.

Lemma history_is_bounded_and_newest_first_witness :
  let entry (n : Z) : history_item float :=
    {| timestamp := "2024-05-01 12:00:00"; value := PyInt n;
       from_unit := "kelvin"; to_unit := "kelvin"; result := PyInt n |} in
  let items := map entry [1; 2; 3; 4; 5; 6; 7; 8; 9; 10; 11; 12; 13; 14; 15] in
  let st := fold_left (fun st it => save_item it st) items new_session in
  length items = 15%nat /\ reachable st /\
  (length (history_of st) <= 10)%nat /\
  length (history_of st) = 10%nat /\
  hd_error (history_of st) = Some (entry 15).
Proof.
  intros entry items st.
  destruct (@history_is_bounded_and_newest_first float)
    as (Hbound & _ & _ & Hfifteen).
  assert (Hlen : length items = 15%nat) by reflexivity.
  assert (Hreach : reachable st).
  { exists (map (fun it => Save (timestamp it) (value it) (from_unit it)
                             (to_unit it) (result it)) items).
    symmetry. apply run_all_saves. }
  split; [exact Hlen |]. split; [exact Hreach |].
  split; [exact (Hbound st Hreach) |].
  exact (Hfifteen items Hlen).
Defined.

(** C7.  [toggle_favorite] works on the key [from_unit + "->" + to_unit]:
    the key is removed when it is a favorite and inserted when it is not,
    no other key changes, and the history is left alone.  Toggling the same
    pair twice gives back the favorites set it started from. *)
Theorem toggle_favorite_twice_is_identity {F : Type}
    (st : session_state F) (from_unit to_unit : string) :
  let key := from_unit +:+ "->" +:+ to_unit in
  let st' := toggle_favorite from_unit to_unit st in
  favorites_of st'
  = (if bool_decide (key ∈ favorites_of st)
     then favorites_of st ∖ {[key]} else favorites_of st ∪ {[key]})
  /\ (key ∈ favorites_of st' <-> key ∉ favorites_of st)
  /\ (forall k, k <> key -> (k ∈ favorites_of st' <-> k ∈ favorites_of st))
  /\ history_of st' = history_of st
  /\ favorites_of (toggle_favorite from_unit to_unit st') = favorites_of st
  /\ (favorites st <> None -> toggle_favorite from_unit to_unit st' = st).
Proof.
  intros key st'.
  split; [apply favorites_of_toggle |].
  split; [apply toggle_member |].
  split; [intros k Hk; now apply toggle_other |].
  split; [reflexivity |].
  split; [apply toggle_twice |].
  intros Hsome. destruct (favorites st) as [favs |] eqn:Hfav; [| congruence].
  now apply toggle_twice_state with favs.
Qed.

Lemma toggle_favorite_twice_is_identity_witness :
  let st : session_state float :=
    toggle_favorite "celsius" "kelvin" new_session in
  favorites st <> None /\
  "celsius->kelvin" <> "meters" +:+ "->" +:+ "feet" /\
  ("celsius->kelvin" ∈ favorites_of (toggle_favorite "meters" "feet" st)
   <-> "celsius->kelvin" ∈ favorites_of st) /\
  toggle_favorite "meters" "feet" (toggle_favorite "meters" "feet" st) = st.
Proof.
  intros st.
  destruct (toggle_favorite_twice_is_identity st "meters" "feet")
    as (_ & _ & Hother & _ & _ & Hstate).
  assert (Hsome : favorites st <> None) by discriminate.
  assert (Hne : "celsius->kelvin" <> "meters" +:+ "->" +:+ "feet") by discriminate.
  split; [exact Hsome |]. split; [exact Hne |].
  split; [exact (Hother "celsius->kelvin" Hne) |].
  exact (Hstate Hsome).
Defined.

(** C8.  Whatever actions led to a session, every key occurs at most once
    among its favorites: once when the key was toggled an odd number of
    times, not at all otherwise. *)
Theorem favorites_have_no_duplicates {F : Type}
    (acts : list (action F)) (k : string) :
  let favs := elements (favorites_of (run_all acts new_session)) in
  NoDup favs
  /\ (count_occ string_dec favs k <= 1)%nat
  /\ count_occ string_dec favs k = (toggles k acts mod 2)%nat.
Proof.
  intros favs.
  assert (Hnodup : NoDup favs) by apply NoDup_elements.
  pose proof (proj1 (NoDup_count_occ string_dec favs)
                (proj1 (NoDup_ListNoDup favs) Hnodup) k) as Hle.
  split; [exact Hnodup |]. split; [exact Hle |].
  pose proof (member_run_all k acts new_session) as Hmem.
  replace (bool_decide (k ∈ favorites_of (@new_session F))) with false in Hmem
    by (symmetry; apply bool_decide_eq_false; apply not_elem_of_empty).
  rewrite xorb_false_l in Hmem.
  assert (Hodd : (toggles k acts mod 2)%nat
                 = if Nat.odd (toggles k acts) then 1%nat else 0%nat).
  { rewrite <- Nat.bit0_mod, Nat.bit0_odd. now destruct (Nat.odd _). }
  rewrite Hodd.
  destruct (Nat.odd (toggles k acts)).
  - assert (Hin : In k favs).
    { apply list_elem_of_In, elem_of_elements, Hmem. reflexivity. }
    apply (count_occ_In string_dec) in Hin. lia.
  - apply count_occ_not_In. intros Hin.
    apply list_elem_of_In, elem_of_elements, Hmem in Hin. discriminate.
Qed.

(** ** The unit catalog and its search *)

Lemma starts_with_spec (p s : string) :
  starts_with p s = true <-> exists post, s = p +:+ post.
Proof.
  revert s. induction p as [| a p IH]; intros s.
  - cbn. split; [intros _; now exists s | reflexivity].
  - destruct s as [| b s]; cbn.
    + split; [discriminate | intros [post Hpost]; discriminate].
    + rewrite andb_true_iff, Ascii.eqb_eq, IH. split.
      * intros [-> [post ->]]. now exists post.
      * intros [post Hpost]. injection Hpost as -> ->. split; [reflexivity | now exists post].
Qed.

Lemma contains_spec (sub s : string) :
  contains sub s = true <-> is_substring sub s.
Proof.
  unfold is_substring. induction s as [| b s IH].
  - cbn [contains]. rewrite orb_false_r, starts_with_spec. split.
    + intros [post Hpost]. exists "", post. exact Hpost.
    + intros [pre [post Hs]]. destruct pre; [now exists post | discriminate].
  - cbn [contains]. rewrite orb_true_iff, starts_with_spec, IH. split.
    + intros [[post Hpost] | [pre [post Hs]]].
      * exists "", post. exact Hpost.
      * exists (String b pre), post. cbn. now rewrite Hs.
    + intros [pre [post Hs]]. destruct pre as [| c pre].
      * left. now exists post.
      * right. cbn in Hs. injection Hs as -> Hs. now exists pre, post.
Qed.

Lemma filter_sublist {A} (f : A -> bool) (l : list A) : sublist (List.filter f l) l.
Proof.
  induction l as [| x l IH]; cbn; [constructor |].
  destruct (f x); now constructor.
Qed.

Lemma map_sublist {A B} (f : A -> B) (l1 l2 : list A) :
  sublist l1 l2 -> sublist (map f l1) (map f l2).
Proof. induction 1; cbn; now constructor. Qed.

Lemma CATEGORIES_keys_distinct : NoDup (map fst CATEGORIES).
Proof. apply (bool_decide_unpack _). vm_compute. exact I. Qed.

Section SearchFacts.
Variable lower : string -> string.

Lemma filtered_categories_spec (text k : string) (units : list string) :
  In (k, units) (filtered_categories lower text)
  <-> In (k, units) CATEGORIES
      /\ (is_substring (lower text) (lower k)
          \/ exists unit, In unit units
                         /\ is_substring (lower text) (lower unit)).
Proof.
  unfold filtered_categories. rewrite filter_In.
  rewrite orb_true_iff, contains_spec, existsb_exists.
  split; intros [Hin Hmatch]; (split; [exact Hin |]).
  - destruct Hmatch as [Hk | [unit [Hu Hc]]]; [now left | right].
    exists unit. now rewrite <- contains_spec.
  - destruct Hmatch as [Hk | [unit [Hu Hc]]]; [now left | right].
    exists unit. now rewrite contains_spec.
Qed.

End SearchFacts.

(** C9.  For any lowercasing function and any search text, a category of
    the catalog is kept exactly when the lowercased text is a substring of
    the lowercased category name or of one of its lowercased unit names.
    What is kept is a sub-sequence of the catalog, each category with its
    own unit list, so the catalog itself is not touched; the search always
    produces a result, and an empty one is shown as a warning, not as a
    failure. *)
Theorem search_is_substring_filter
    (lower : string -> string) (text : string) :
  (forall (k : string) (units : list string),
     In (k, units) (filtered_categories lower text)
     <-> In (k, units) CATEGORIES
         /\ (is_substring (lower text) (lower k)
             \/ exists unit, In unit units
                            /\ is_substring (lower text) (lower unit)))
  /\ sublist (filtered_categories lower text) CATEGORIES
  /\ NoDup (map fst (filtered_categories lower text))
  /\ search_units lower text
     = match filtered_categories lower text with
       | [] => Warning "No units found matching your search."
       | kept => SelectCategory (map fst kept)
       end.
Proof.
  split; [intros k units; apply filtered_categories_spec |].
  assert (Hsub : sublist (filtered_categories lower text) CATEGORIES)
    by apply filter_sublist.
  split; [exact Hsub |]. split; [| reflexivity].
  apply (sublist_NoDup _ (map fst CATEGORIES)).
  - exact CATEGORIES_keys_distinct.
  - now apply map_sublist.
Qed.

(** ** Text *)

Lemma append_cons (x : ascii) (a b : string) :
  String x a +:+ b = String x (a +:+ b).
Proof. reflexivity. Qed.

Lemma append_assoc (a b c : string) : (a +:+ b) +:+ c = a +:+ (b +:+ c).
Proof.
  induction a as [| x a IH]; [reflexivity |].
  now rewrite !append_cons, IH.
Qed.

Lemma append_nil_r (a : string) : a +:+ "" = a.
Proof.
  induction a as [| x a IH]; [reflexivity |]. now rewrite append_cons, IH.
Qed.

Lemma split_from_cons sep k piece s :
  exists p rest, split_from sep k piece s = p :: rest.
Proof.
  revert k piece. induction s as [| c s IH]; intros k piece.
  - now exists piece, [].
  - cbn [split_from]. destruct k as [| k]; [| apply IH].
    destruct (starts_with sep (String c s)); [| apply IH].
    now eexists _, _.
Qed.

(** ** Favorites on the page *)

Lemma arrow_not_started (c : ascii) (s rest : string) :
  starts_with "->" (String c s) = false ->
  starts_with "->" (String c (s +:+ "->" +:+ rest)) = false.
Proof.
  destruct s as [| d s]; [| now rewrite append_cons].
  cbn [starts_with String.append]. intros _.
  now destruct (Ascii.eqb "-" c).
Qed.

(** up to the first "->" *)
Lemma split_arrow_first (piece a rest : string) :
  contains "->" a = false ->
  split_from "->" 0 piece (a +:+ "->" +:+ rest)
  = (piece +:+ a) :: split_from "->" 0 "" rest.
Proof.
  revert piece. induction a as [| c a IH]; intros piece Ha.
  - now rewrite append_nil_r.
  - cbn [contains] in Ha. apply orb_false_iff in Ha. destruct Ha as [Hs Ha].
    rewrite append_cons. cbn [split_from].
    rewrite (arrow_not_started c a rest Hs), IH by assumption.
    now rewrite append_assoc.
Qed.

Lemma split_arrow_none (piece s : string) :
  contains "->" s = false -> split_from "->" 0 piece s = [piece +:+ s].
Proof.
  revert piece. induction s as [| c s IH]; intros piece Hs.
  - now rewrite append_nil_r.
  - cbn [contains] in Hs. apply orb_false_iff in Hs. destruct Hs as [Hh Hs].
    cbn [split_from]. rewrite Hh, IH by assumption. now rewrite append_assoc.
Qed.

Lemma split_arrow_some (piece s : string) :
  contains "->" s = true ->
  exists p q rest, split_from "->" 0 piece s = p :: q :: rest.
Proof.
  revert piece. induction s as [| c s IH]; intros piece Hs; [discriminate |].
  cbn [contains] in Hs. cbn [split_from].
  destruct (starts_with "->" (String c s)) eqn:Hh.
  - destruct (split_from_cons "->" (String.length "->" - 1) "" s) as (q & rest & ->).
    now exists piece, q, rest.
  - apply IH. exact Hs.
Qed.

Lemma first_arrow (s : string) :
  contains "->" s = true ->
  exists a b, s = a +:+ "->" +:+ b /\ contains "->" a = false.
Proof.
  induction s as [| c s IH]; [discriminate |].
  cbn [contains]. destruct (starts_with "->" (String c s)) eqn:Hh.
  - intros _. apply starts_with_spec in Hh. destruct Hh as [b Hb].
    exists "", b. split; [exact Hb | reflexivity].
  - cbn [orb]. intros Hs. destruct (IH Hs) as (a & b & -> & Ha).
    exists (String c a), b. split; [reflexivity |].
    cbn [contains]. rewrite Ha, orb_false_r.
    destruct a as [| d a]; [| exact Hh].
    cbn [starts_with]. now destruct (Ascii.eqb "-" c).
Qed.

Lemma unpack_split_key (from_unit to_unit : string) :
  unpack_pair (split "->" (from_unit +:+ "->" +:+ to_unit))
  = if (contains "->" from_unit || contains "->" to_unit)%bool
    then None else Some (from_unit, to_unit).
Proof.
  unfold split.
  destruct (contains "->" from_unit) eqn:Hf; cbn [orb].
  - destruct (first_arrow from_unit Hf) as (a & b & -> & Ha).
    rewrite !append_assoc, split_arrow_first by assumption.
    destruct (split_arrow_some "" (b +:+ "->" +:+ to_unit)) as (p & q & rest & ->);
      [| reflexivity].
    apply contains_spec. now exists b, to_unit.
  - rewrite split_arrow_first by assumption. cbn [String.append].
    destruct (contains "->" to_unit) eqn:Ht.
    + destruct (split_arrow_some "" to_unit Ht) as (p & q & rest & ->).
      reflexivity.
    + now rewrite split_arrow_none.
Qed.

Lemma catalog_units_arrow_free : forallb arrow_free_entry CATEGORIES = true.
Proof. vm_compute. reflexivity. Qed.

Lemma catalog_unit_arrow_free k units unit :
  In (k, units) CATEGORIES -> In unit units -> contains "->" unit = false.
Proof.
  intros Hk Hu. pose proof catalog_units_arrow_free as Hall.
  rewrite forallb_forall in Hall. specialize (Hall _ Hk).
  unfold arrow_free_entry in Hall. rewrite forallb_forall in Hall.
  specialize (Hall _ Hu). now apply negb_true_iff in Hall.
Qed.

Lemma favorite_comes_from_toggle {F : Type} (acts : list (action F)) (k : string) :
  k ∈ favorites_of (run_all acts new_session) ->
  exists from_unit to_unit,
    In (Toggle from_unit to_unit) acts /\ k = pair_key from_unit to_unit.
Proof.
  intros Hk. apply member_run_all in Hk.
  replace (bool_decide (k ∈ favorites_of (@new_session F))) with false in Hk
    by (symmetry; apply bool_decide_eq_false; apply not_elem_of_empty).
  rewrite xorb_false_l in Hk. unfold toggles in Hk.
  destruct (List.filter _ acts) as [| a rest] eqn:Hfilter; [discriminate |].
  assert (Ha : In a (List.filter
                       (fun a => match a with
                                 | Toggle f t => bool_decide (pair_key f t = k)
                                 | Save _ _ _ _ _ => false
                                 end) acts))
    by (rewrite Hfilter; now left).
  apply filter_In in Ha. destruct Ha as [Hin Hp].
  destruct a as [now v f t r | f t]; [discriminate |].
  apply bool_decide_eq_true in Hp. now exists f, t.
Qed.

Lemma favorite_item_of_pair (title : string -> string)
    (from_unit to_unit : string) :
  favorite_item title (pair_key from_unit to_unit)
  = if (contains "->" from_unit || contains "->" to_unit)%bool
    then None
    else Some ("<li>" +:+ format_unit title from_unit +:+ " → "
               +:+ format_unit title to_unit +:+ "</li>").
Proof.
  unfold favorite_item, pair_key.
  rewrite unpack_split_key.
  now destruct (contains "->" from_unit || contains "->" to_unit)%bool.
Qed.

Lemma pair_key_inj (f t f' t' : string) :
  contains "->" f = false -> contains "->" t = false ->
  contains "->" f' = false -> contains "->" t' = false ->
  pair_key f t = pair_key f' t' -> f = f' /\ t = t'.
Proof.
  intros Hf Ht Hf' Ht' Hkey.
  pose proof (unpack_split_key f t) as H1.
  pose proof (unpack_split_key f' t') as H2.
  rewrite Hf, Ht in H1. rewrite Hf', Ht' in H2. cbn [orb] in H1, H2.
  unfold pair_key in Hkey. rewrite Hkey, H2 in H1.
  injection H1 as <- <-. split; reflexivity.
Qed.

Lemma toggles_Permutation {F : Type} (k : string) (acts1 acts2 : list (action F)) :
  Permutation acts1 acts2 -> toggles k acts1 = toggles k acts2.
Proof.
  intros Hperm. unfold toggles.
  induction Hperm as [| a l1 l2 _ IH | a b l | l1 l2 l3 _ IH1 _ IH2].
  - reflexivity.
  - cbn [List.filter]. destruct a as [now v f t r | f t]; [exact IH |].
    destruct (bool_decide (pair_key f t = k)); cbn [length]; now rewrite ?IH.
  - cbn [List.filter].
    destruct a as [? ? ? ? ? | f t], b as [? ? ? ? ? | f' t']; try reflexivity.
    destruct (bool_decide (pair_key f t = k)),
      (bool_decide (pair_key f' t' = k)); reflexivity.
  - now rewrite IH1.
Qed.

(** X3.  Splitting a favorites key at "->" gives back the two unit names
    exactly when neither name contains "->"; otherwise the key falls into
    three or more pieces and unpacking it raises. *)
Theorem favorite_key_unpacks_iff_arrow_free (from_unit to_unit : string) :
  unpack_pair (split "->" (pair_key from_unit to_unit))
  = if (contains "->" from_unit || contains "->" to_unit)%bool
    then None else Some (from_unit, to_unit).
Proof. exact (unpack_split_key from_unit to_unit). Qed.

(** X4.  The favorites card can be written for every session whose
    toggles pair names without "->", as all unit names of the catalog are:
    each favorite becomes one item showing the two display names.  A single
    toggle of a pair with "->" in a name makes the card raise. *)
Theorem favorites_card_renders {F : Type} (title : string -> string)
    (acts : list (action F)) :
  (forall k units unit,
     In (k, units) CATEGORIES -> In unit units -> contains "->" unit = false)
  /\ (arrow_free_toggles acts ->
      exists items,
        favorites_items title (run_all acts new_session) = Some items
        /\ Forall2 (fun fav item =>
                      exists from_unit to_unit,
                        In (Toggle from_unit to_unit) acts
                        /\ fav = pair_key from_unit to_unit
                        /\ item = "<li>" +:+ format_unit title from_unit
                                  +:+ " → " +:+ format_unit title to_unit
                                  +:+ "</li>")
                   (elements (favorites_of (run_all acts new_session))) items)
  /\ (forall from_unit to_unit,
        (contains "->" from_unit || contains "->" to_unit)%bool = true ->
        favorites_items title
          (toggle_favorite from_unit to_unit (@new_session F))
        = None).
Proof.
  split; [exact catalog_unit_arrow_free |]. split.
  - intros Hfree. set (st := run_all acts new_session).
    assert (Hall : Forall (fun fav =>
                     exists from_unit to_unit,
                       In (Toggle from_unit to_unit) acts
                       /\ fav = pair_key from_unit to_unit
                       /\ favorite_item title fav
                          = Some ("<li>" +:+ format_unit title from_unit
                                  +:+ " → " +:+ format_unit title to_unit
                                  +:+ "</li>"))
                   (elements (favorites_of st))).
    { apply Forall_forall. intros fav Hfav. apply elem_of_elements in Hfav.
      destruct (favorite_comes_from_toggle acts fav Hfav) as (f & t & Hin & ->).
      exists f, t. split; [exact Hin |]. split; [reflexivity |].
      destruct (Hfree f t Hin) as [Hf Ht].
      now rewrite favorite_item_of_pair, Hf, Ht. }
    assert (Hlist : forall favs : list string,
              Forall (fun fav =>
                     exists from_unit to_unit,
                       In (Toggle from_unit to_unit) acts
                       /\ fav = pair_key from_unit to_unit
                       /\ favorite_item title fav
                          = Some ("<li>" +:+ format_unit title from_unit
                                  +:+ " → " +:+ format_unit title to_unit
                                  +:+ "</li>")) favs ->
              exists items,
                mapM (favorite_item title) favs = Some items
                /\ Forall2 (fun fav item =>
                      exists from_unit to_unit,
                        In (Toggle from_unit to_unit) acts
                        /\ fav = pair_key from_unit to_unit
                        /\ item = "<li>" +:+ format_unit title from_unit
                                  +:+ " → " +:+ format_unit title to_unit
                                  +:+ "</li>")
                     favs items).
    { intros favs HF.
      induction HF as [| fav favs' (f & t & Hin & -> & Hitem) _ IH].
      - exists []. split; [reflexivity | constructor].
      - destruct IH as (items & Hitems & Hrel).
        exists (("<li>" +:+ format_unit title f +:+ " → "
                 +:+ format_unit title t +:+ "</li>") :: items).
        split.
        + cbn [mapM]. rewrite Hitem. cbn. rewrite Hitems. reflexivity.
        + constructor; [| exact Hrel]. now exists f, t. }
    unfold favorites_items. unfold favorites_of in Hall |- *.
    destruct (favorites st) as [favs |]; cbn [default] in Hall |- *.
    + exact (Hlist _ Hall).
    + exists []. split; [reflexivity |]. rewrite elements_empty. constructor.
  - intros f t Harrow. unfold favorites_items, toggle_favorite.
    cbn [favorites new_session].
    rewrite bool_decide_eq_false_2 by apply not_elem_of_empty.
    rewrite union_empty_l_L, elements_singleton. cbn [mapM].
    fold (pair_key f t). rewrite favorite_item_of_pair, Harrow. reflexivity.
Qed.

Lemma favorites_card_renders_witness :
  exists items,
    favorites_items (fun s => s)
      (run_all [Toggle "celsius" "kelvin"] (@new_session float)) = Some items
    /\ items = ["<li>celsius → kelvin</li>"].
Proof.
  destruct (favorites_card_renders (F:=float) (fun s => s)
              [Toggle "celsius" "kelvin"]) as (_ & Hcard & _).
  destruct Hcard as (items & Hitems & Hrel).
  - intros f t [Heq | []]. injection Heq as <- <-. split; reflexivity.
  - exists items. split; [exact Hitems |].
    change (favorites_of (run_all [Toggle "celsius" "kelvin"] (@new_session float)))
      with (favorites_of (toggle_favorite "celsius" "kelvin" (@new_session float)))
      in Hrel.
    rewrite favorites_of_toggle in Hrel. cbv zeta in Hrel.
    rewrite bool_decide_eq_false_2 in Hrel by apply not_elem_of_empty.
    cbn [favorites_of new_session favorites default] in Hrel.
    rewrite union_empty_l_L, elements_singleton in Hrel.
    inversion Hrel as [| fav item favs' items' (f & t & Hin & Hkey & Hitem) Hrest];
      subst.
    inversion Hrest; subst.
    destruct Hin as [Heq | []]. injection Heq as <- <-. reflexivity.
Defined.

(** X5.  Which pairs are favorites does not depend on the order of the
    presses: two sessions that go through the same conversions and
    toggles, in any order, from the same state end with the same set. *)
Theorem favorites_ignore_order {F : Type} (acts1 acts2 : list (action F))
    (st : session_state F) :
  Permutation acts1 acts2 ->
  favorites_of (run_all acts1 st) = favorites_of (run_all acts2 st).
Proof.
  intros Hperm. apply set_eq. intros k.
  rewrite !member_run_all. now rewrite (toggles_Permutation k _ _ Hperm).
Qed.

Lemma favorites_ignore_order_witness :
  favorites_of (run_all [Toggle "meters" "feet"; Toggle "celsius" "kelvin";
                         Toggle "meters" "feet"] (@new_session float))
  = favorites_of (run_all [Toggle "celsius" "kelvin"; Toggle "meters" "feet";
                           Toggle "meters" "feet"] (@new_session float)).
Proof.
  apply favorites_ignore_order.
  apply perm_swap.
Defined.

(** X6.  Toggling one pair changes the status of no other pair, as long
    as no unit name contains "->" (none of the catalog does).  With "->"
    in a name two pairs can share one key: "a->b" with "c" and "a" with
    "b->c". *)
Theorem toggle_leaves_other_pairs {F : Type}
    (from_unit to_unit from_unit' to_unit' : string) (st : session_state F) :
  contains "->" from_unit = false -> contains "->" to_unit = false ->
  contains "->" from_unit' = false -> contains "->" to_unit' = false ->
  (from_unit', to_unit') <> (from_unit, to_unit) ->
  (pair_key from_unit' to_unit'
     ∈ favorites_of (toggle_favorite from_unit to_unit st)
   <-> pair_key from_unit' to_unit' ∈ favorites_of st)
  /\ pair_key "a->b" "c" = pair_key "a" "b->c".
Proof.
  intros Hf Ht Hf' Ht' Hne. split; [| reflexivity].
  apply toggle_other. intros Hkey.
  destruct (pair_key_inj _ _ _ _ Hf' Ht' Hf Ht Hkey) as [-> ->].
  now apply Hne.
Qed.

Lemma toggle_leaves_other_pairs_witness :
  (pair_key "celsius" "kelvin"
     ∈ favorites_of (toggle_favorite "kelvin" "celsius" (@new_session float))
   <-> pair_key "celsius" "kelvin" ∈ favorites_of (@new_session float))
  /\ pair_key "a->b" "c" = pair_key "a" "b->c".
Proof.
  apply (toggle_leaves_other_pairs (F:=float)); try reflexivity.
  intros E. discriminate E.
Defined.

(** ** The page *)

Lemma temperature_units_stay_together :
  forallb same_dimension_ok CATEGORIES = true.
Proof. vm_compute. reflexivity. Qed.

(** X1.  The two unit selectors offer the units of one category kept by the
    search.  So on the page a temperature source always comes with a
    temperature target: the conversion follows the formulas and is never
    rejected; every other source is handed to pint. *)
Theorem page_pairs_units_of_one_category
    (lower : string -> string)
    (pint_convert : pynum float -> string -> string -> option float)
    (text category : string) (units : list string)
    (from_unit to_unit : string) (v : float) :
  In (category, units) (filtered_categories lower text) ->
  In from_unit units -> In to_unit units ->
  (In from_unit temperature_units ->
   In to_unit temperature_units
   /\ exists r, spec_convert from_unit to_unit v = Some r
        /\ convert_units pint_convert (Num (PyFloat v)) from_unit to_unit
           = Returned (PyFloat r))
  /\ (~ In from_unit temperature_units ->
      convert_units pint_convert (Num (PyFloat v)) from_unit to_unit
      = match pint_convert (PyFloat v) from_unit to_unit with
        | Some magnitude => Returned (PyFloat magnitude)
        | None => Rejected ("Invalid unit combination: " +:+ from_unit
                            +:+ " to " +:+ to_unit)
        end).
Proof.
  intros Hkept Hfrom Hto. split; [| apply convert_units_pint].
  intros Htemp.
  assert (Hto' : In to_unit temperature_units).
  { apply filtered_categories_spec in Hkept. destruct Hkept as [Hcat _].
    pose proof temperature_units_stay_together as Hall.
    rewrite forallb_forall in Hall. specialize (Hall _ Hcat).
    unfold same_dimension_ok in Hall. cbn [snd] in Hall.
    replace (existsb (fun u => str_in u temperature_units) units) with true in Hall.
    - rewrite forallb_forall in Hall. apply str_in_In. now apply Hall.
    - symmetry. apply existsb_exists. exists from_unit.
      split; [assumption | now apply str_in_In]. }
  split; [exact Hto' |].
  destruct (convert_units_temperature pint_convert v from_unit to_unit Htemp)
    as (k & Hk & Hrun).
  assert (Hden : exists r, spec_denormalize to_unit k = Some r).
  { apply temperature_units_cases in Hto'.
    destruct Hto' as [-> | [-> | [-> | ->]]]; eexists; reflexivity. }
  destruct Hden as [r Hr]. exists r. split.
  - unfold spec_convert. rewrite Hk. exact Hr.
  - rewrite Hrun, Hr. reflexivity.
Qed.

Lemma page_pairs_units_of_one_category_witness :
  In "fahrenheit" temperature_units
  /\ exists r,
       spec_convert "celsius" "fahrenheit" 100%float = Some r
       /\ convert_units empty_registry (Num (PyFloat 100%float))
            "celsius" "fahrenheit"
          = Returned (PyFloat r).
Proof.
  refine (proj1 (page_pairs_units_of_one_category (fun s => s) empty_registry
                   "kelvin" "🌡️ Temperature"
                   ["celsius"; "fahrenheit"; "kelvin"; "rankine"]
                   "celsius" "fahrenheit" 100%float _ _ _) _).
  - vm_compute. left. reflexivity.
  - cbn. tauto.
  - cbn. tauto.
  - cbn. tauto.
Defined.

Section PageFacts.
Context {F : Type} `{PyFloatOps F}.
Variable pint_convert : pynum F -> string -> string -> option F.

Lemma convert_clicks_saves (cs : list (click (F:=F))) (st : session_state F) :
  convert_clicks pint_convert cs st
  = fold_left (fun st it => save_item it st)
              (omap (recorded pint_convert) cs) st.
Proof.
  unfold convert_clicks. revert st.
  induction cs as [| c cs IH]; intros st; [reflexivity |].
  cbn [fold_left]. rewrite IH.
  change (omap (recorded pint_convert) (c :: cs))
    with (match recorded pint_convert c with
          | Some it => it :: omap (recorded pint_convert) cs
          | None => omap (recorded pint_convert) cs
          end).
  unfold convert_clicked, recorded.
  now destruct (convert_units pint_convert _ _ _) as [r | msg].
Qed.

End PageFacts.

(** X2.  After any number of presses of Convert in a new session, the
    history holds the presses whose conversion returned a number, the last
    ten of them, newest first, each with the value entered and the result
    returned; rejected conversions leave no trace, and the favorites are
    never touched. *)
Theorem convert_button_records_successes {F : Type} `{PyFloatOps F}
    (pint_convert : pynum F -> string -> string -> option F)
    (cs : list (click (F:=F))) :
  let st := convert_clicks pint_convert cs new_session in
  history_of st = firstn 10 (rev (omap (recorded pint_convert) cs))
  /\ favorites_of st = ∅
  /\ (length (history_of st) <= 10)%nat.
Proof.
  intros st. subst st. rewrite convert_clicks_saves.
  rewrite history_of_saves by (cbn; lia).
  cbn [history_of new_session conversion_history default].
  rewrite app_nil_r. split; [reflexivity |]. split.
  - generalize (omap (recorded pint_convert) cs). intros items.
    assert (Hfav : forall (st : session_state F),
               favorites_of (fold_left (fun st it => save_item it st) items st)
               = favorites_of st).
    { induction items as [| it items IH]; intros st; [reflexivity |].
      cbn [fold_left]. now rewrite IH. }
    now rewrite Hfav.
  - rewrite length_firstn. lia.
Qed.

Lemma filter_weaker_sublist {A} (p q : A -> bool) (l : list A) :
  (forall x, p x = true -> q x = true) ->
  sublist (List.filter p l) (List.filter q l).
Proof.
  intros Hpq. induction l as [| x l IH]; cbn; [constructor |].
  destruct (p x) eqn:Hp.
  - rewrite (Hpq x Hp). now constructor.
  - destruct (q x); [now constructor | assumption].
Qed.

Lemma is_substring_trans a b c :
  is_substring a b -> is_substring b c -> is_substring a c.
Proof.
  intros (p1 & q1 & ->) (p2 & q2 & ->).
  exists (p2 +:+ p1), (q1 +:+ q2). now rewrite !append_assoc.
Qed.

Lemma search_narrows (lower : string -> string) (t1 t2 : string) :
  is_substring (lower t1) (lower t2) ->
  sublist (filtered_categories lower t2) (filtered_categories lower t1).
Proof.
  intros Hsub. unfold filtered_categories. apply filter_weaker_sublist.
  assert (Hc : forall s, contains (lower t2) s = true -> contains (lower t1) s = true).
  { intros s Hs. apply contains_spec. apply contains_spec in Hs.
    now apply is_substring_trans with (lower t2). }
  intros [k v]. rewrite !orb_true_iff, !existsb_exists.
  intros [Hk | (unit & Hu & Hs)]; [left; now apply Hc |].
  right. exists unit. split; [assumption | now apply Hc].
Qed.

(** X11.  Narrowing the search: when the lowered text of one search
    occurs in the lowered text of another, the second keeps a sub-sequence
    of the categories the first keeps; and a search whose lowered text is
    empty keeps the whole catalog. *)
Theorem longer_search_keeps_less (lower : string -> string)
    (text longer : string) :
  (is_substring (lower text) (lower longer) ->
   sublist (filtered_categories lower longer) (filtered_categories lower text))
  /\ (lower text = "" ->
      filtered_categories lower text = CATEGORIES
      /\ search_units lower text = SelectCategory (map fst CATEGORIES)).
Proof.
  split; [apply search_narrows |].
  intros Hempty.
  assert (Hall : filtered_categories lower text = CATEGORIES).
  { unfold filtered_categories. rewrite Hempty.
    apply forallb_filter_id. apply forallb_forall. intros [k v] _.
    apply orb_true_iff. left. apply contains_spec. now exists "", (lower k). }
  split; [exact Hall |]. unfold search_units. rewrite Hall. reflexivity.
Qed.

Lemma longer_search_keeps_less_witness :
  sublist (filtered_categories (fun s => s) "kilometers")
          (filtered_categories (fun s => s) "meters")
  /\ filtered_categories (fun s => s) "" = CATEGORIES.
Proof.
  pose proof (longer_search_keeps_less (fun s => s) "meters" "kilometers")
    as [Hnarrow _].
  pose proof (longer_search_keeps_less (fun s => s) "" "") as [_ Hall].
  split.
  - apply Hnarrow. exists "kilo", "". reflexivity.
  - apply Hall. reflexivity.
Defined.

(** ** Accuracy of the temperature formulas *)

Lemma literal_errors :
  (Rabs (B2R 273.15%float - 273.15) <= 3e-14)%R
  /\ (Rabs (B2R 459.67%float - 459.67) <= 3e-14)%R.
Proof.
  rewrite B2R_273_15, B2R_459_67. split; apply Rabs_le; lra.
Qed.

Section TemperatureSteps.
Variables (v : float) (V : R).
Hypothesis Hv : is_finite_float v = true.
Hypothesis HV : (Rabs (B2R v) <= V)%R.
Hypothesis Hmax : (V <= 9.9e306)%R.

Lemma plus_273_15_error :
  is_finite_float (v + 273.15) = true
  /\ (Rabs (B2R (v + 273.15) - (B2R v + 273.15)) <= 1.12e-16 * V + 6e-14)%R.
Proof using Hv HV Hmax.
  destruct finite_constants as (F1 & F2 & F9 & F5).
  assert (Hu : p2 (-53) = (/ IZR (2 ^ 53))%R) by (apply (p2_neg_IZR 53); lia).
  assert (Heta : p2 (-1075) = (/ IZR (2 ^ 1075))%R) by (apply (p2_neg_IZR 1075); lia).
  assert (Htop : p2 1023 = IZR (2 ^ 1023)) by (apply p2_nonneg_IZR; lia).
  pose proof B2R_273_15 as C1.
  assert (Hx : (- V <= B2R v <= V)%R) by (apply Rabs_le_inv; lra).
  destruct (add_error v 273.15%float (V + 274) Hv F1) as [G1 H1];
    [lra | apply Rabs_le; lra |].
  apply Rabs_le_inv in H1. rewrite Hu, Heta in H1.
  split; [exact G1 |]. apply Rabs_le. lra.
Qed.

Lemma minus_273_15_error :
  is_finite_float (v - 273.15) = true
  /\ (Rabs (B2R (v - 273.15) - (B2R v - 273.15)) <= 1.12e-16 * V + 6e-14)%R.
Proof using Hv HV Hmax.
  destruct finite_constants as (F1 & F2 & F9 & F5).
  assert (Hu : p2 (-53) = (/ IZR (2 ^ 53))%R) by (apply (p2_neg_IZR 53); lia).
  assert (Heta : p2 (-1075) = (/ IZR (2 ^ 1075))%R) by (apply (p2_neg_IZR 1075); lia).
  assert (Htop : p2 1023 = IZR (2 ^ 1023)) by (apply p2_nonneg_IZR; lia).
  pose proof B2R_273_15 as C1.
  assert (Hx : (- V <= B2R v <= V)%R) by (apply Rabs_le_inv; lra).
  destruct (sub_error v 273.15%float (V + 274) Hv F1) as [G1 H1];
    [lra | apply Rabs_le; lra |].
  apply Rabs_le_inv in H1. rewrite Hu, Heta in H1.
  split; [exact G1 |]. apply Rabs_le. lra.
Qed.

Lemma times_5_over_9_error :
  is_finite_float (v * 5 / 9) = true
  /\ (Rabs (B2R (v * 5 / 9) - B2R v * 5 / 9) <= 1.24e-16 * V + 1e-300)%R.
Proof using Hv HV Hmax.
  destruct finite_constants as (F1 & F2 & F9 & F5).
  assert (Hu : p2 (-53) = (/ IZR (2 ^ 53))%R) by (apply (p2_neg_IZR 53); lia).
  assert (Heta : p2 (-1075) = (/ IZR (2 ^ 1075))%R) by (apply (p2_neg_IZR 1075); lia).
  assert (Htop : p2 1023 = IZR (2 ^ 1023)) by (apply p2_nonneg_IZR; lia).
  pose proof B2R_9 as C9. pose proof B2R_5 as C5.
  assert (Hx : (- V <= B2R v <= V)%R) by (apply Rabs_le_inv; lra).
  destruct (mul_error v 5%float (5 * V) Hv F5) as [G1 H1];
    [lra | rewrite C5; apply Rabs_le; lra |].
  apply Rabs_le_inv in H1. rewrite Hu, Heta, C5 in H1.
  set (a1 := (v * 5)%float) in *.
  destruct (div_error a1 9%float (0.556 * V + 1e-300) G1 F9) as [G2 H2];
    [lra | eexists _, _, _; reflexivity | rewrite C9; apply Rabs_le; lra |].
  apply Rabs_le_inv in H2. rewrite Hu, Heta, C9 in H2.
  split; [exact G2 |]. apply Rabs_le. lra.
Qed.

Lemma times_9_over_5_error :
  is_finite_float (v * 9 / 5) = true
  /\ (Rabs (B2R (v * 9 / 5) - B2R v * 9 / 5) <= 4e-16 * V + 1e-300)%R.
Proof using Hv HV Hmax.
  destruct finite_constants as (F1 & F2 & F9 & F5).
  assert (Hu : p2 (-53) = (/ IZR (2 ^ 53))%R) by (apply (p2_neg_IZR 53); lia).
  assert (Heta : p2 (-1075) = (/ IZR (2 ^ 1075))%R) by (apply (p2_neg_IZR 1075); lia).
  assert (Htop : p2 1023 = IZR (2 ^ 1023)) by (apply p2_nonneg_IZR; lia).
  pose proof B2R_9 as C9. pose proof B2R_5 as C5.
  assert (Hx : (- V <= B2R v <= V)%R) by (apply Rabs_le_inv; lra).
  destruct (mul_error v 9%float (9 * V) Hv F9) as [G1 H1];
    [lra | rewrite C9; apply Rabs_le; lra |].
  apply Rabs_le_inv in H1. rewrite Hu, Heta, C9 in H1.
  set (a1 := (v * 9)%float) in *.
  destruct (div_error a1 5%float (1.801 * V + 1e-300) G1 F5) as [G2 H2];
    [lra | eexists _, _, _; reflexivity | rewrite C5; apply Rabs_le; lra |].
  apply Rabs_le_inv in H2. rewrite Hu, Heta, C5 in H2.
  split; [exact G2 |]. apply Rabs_le. lra.
Qed.

Lemma plus_459_67_error :
  is_finite_float (v + 459.67) = true
  /\ (Rabs (B2R (v + 459.67) - (B2R v + 459.67)) <= 1.12e-16 * V + 9e-14)%R.
Proof using Hv HV Hmax.
  destruct finite_constants as (F1 & F2 & F9 & F5).
  assert (Hu : p2 (-53) = (/ IZR (2 ^ 53))%R) by (apply (p2_neg_IZR 53); lia).
  assert (Heta : p2 (-1075) = (/ IZR (2 ^ 1075))%R) by (apply (p2_neg_IZR 1075); lia).
  assert (Htop : p2 1023 = IZR (2 ^ 1023)) by (apply p2_nonneg_IZR; lia).
  pose proof B2R_459_67 as C2.
  assert (Hx : (- V <= B2R v <= V)%R) by (apply Rabs_le_inv; lra).
  destruct (add_error v 459.67%float (V + 460) Hv F2) as [G1 H1];
    [lra | apply Rabs_le; lra |].
  apply Rabs_le_inv in H1. rewrite Hu, Heta in H1.
  split; [exact G1 |]. apply Rabs_le. lra.
Qed.

Lemma minus_459_67_error :
  is_finite_float (v - 459.67) = true
  /\ (Rabs (B2R (v - 459.67) - (B2R v - 459.67)) <= 1.12e-16 * V + 9e-14)%R.
Proof using Hv HV Hmax.
  destruct finite_constants as (F1 & F2 & F9 & F5).
  assert (Hu : p2 (-53) = (/ IZR (2 ^ 53))%R) by (apply (p2_neg_IZR 53); lia).
  assert (Heta : p2 (-1075) = (/ IZR (2 ^ 1075))%R) by (apply (p2_neg_IZR 1075); lia).
  assert (Htop : p2 1023 = IZR (2 ^ 1023)) by (apply p2_nonneg_IZR; lia).
  pose proof B2R_459_67 as C2.
  assert (Hx : (- V <= B2R v <= V)%R) by (apply Rabs_le_inv; lra).
  destruct (sub_error v 459.67%float (V + 460) Hv F2) as [G1 H1];
    [lra | apply Rabs_le; lra |].
  apply Rabs_le_inv in H1. rewrite Hu, Heta in H1.
  split; [exact G1 |]. apply Rabs_le. lra.
Qed.

End TemperatureSteps.

Lemma real_literals : Q2R 5 = 5%R /\ Q2R 9 = 9%R.
Proof. unfold Q2R. cbn. split; lra. Qed.

(** the formula of the source unit, in floats and in real numbers *)
Lemma normalize_error (from_unit : string) (v : float) (V : R) :
  is_finite_float v = true -> (Rabs (B2R v) <= V)%R -> (V <= 1e306)%R ->
  In from_unit temperature_units ->
  exists (k : float) (x : R),
    spec_normalize from_unit v = Some k
    /\ spec_normalize from_unit (B2R v) = Some x
    /\ is_finite_float k = true
    /\ (Rabs (B2R k - x) <= 1.9e-16 * V + 1.1e-13)%R
    /\ (Rabs x <= V + 274)%R.
Proof.
  intros Hv HV Hmax Hin.
  destruct real_literals as (L5 & L9).
  assert (Hx : (- V <= B2R v <= V)%R) by (apply Rabs_le_inv; lra).
  apply temperature_units_cases in Hin.
  destruct Hin as [-> | [-> | [-> | ->]]];
    cbn [String.eqb Ascii.eqb Bool.eqb spec_normalize];
    eexists _, _; (split; [reflexivity |]); (split; [reflexivity |]);
    cbn [literal fadd fmul fdiv binary64_ops real_ops].
  - change (Binary64.literal 273.15) with 273.15%float.
    destruct (plus_273_15_error v V Hv HV) as [G1 H1]; [lra |].
    split; [exact G1 |]. apply Rabs_le_inv in H1.
    split; apply Rabs_le; lra.
  - change (Binary64.literal 459.67) with 459.67%float.
    change (Binary64.literal 5) with 5%float.
    change (Binary64.literal 9) with 9%float. rewrite L5, L9.
    destruct (plus_459_67_error v V Hv HV) as [G1 H1]; [lra |].
    apply Rabs_le_inv in H1. set (a1 := (v + 459.67)%float) in *.
    destruct (times_5_over_9_error a1 (1.001 * V + 460) G1) as [G2 H2];
      [apply Rabs_le; lra | lra |].
    apply Rabs_le_inv in H2.
    split; [exact G2 |]. split; apply Rabs_le; lra.
  - split; [exact Hv |]. split; apply Rabs_le; lra.
  - change (Binary64.literal 5) with 5%float.
    change (Binary64.literal 9) with 9%float. rewrite L5, L9.
    destruct (times_5_over_9_error v V Hv HV) as [G2 H2]; [lra |].
    apply Rabs_le_inv in H2.
    split; [exact G2 |]. split; apply Rabs_le; lra.
Qed.

(** the formula of the target unit, in floats on the float kelvin value
    [k] and in real numbers on any [x] *)
Lemma denormalize_error (to_unit : string) (k : float) (W x : R) :
  is_finite_float k = true -> (Rabs (B2R k) <= W)%R -> (W <= 1.1e306)%R ->
  In to_unit temperature_units ->
  exists (r : float) (y : R),
    spec_denormalize to_unit k = Some r
    /\ spec_denormalize to_unit x = Some y
    /\ is_finite_float r = true
    /\ (Rabs (B2R r - y) <= 6.1e-16 * W + 1e-13 + 1.8 * Rabs (B2R k - x))%R.
Proof.
  intros Hk HW Hmax Hin.
  destruct real_literals as (L5 & L9).
  assert (Hx : (- W <= B2R k <= W)%R) by (apply Rabs_le_inv; lra).
  pose proof (Rabs_pos (B2R k - x)) as Hd0.
  assert (Hd : (- Rabs (B2R k - x) <= B2R k - x <= Rabs (B2R k - x))%R)
    by (apply Rabs_le_inv; lra).
  remember (Rabs (B2R k - x)) as D eqn:HD. clear HD.
  apply temperature_units_cases in Hin.
  destruct Hin as [-> | [-> | [-> | ->]]];
    cbn [String.eqb Ascii.eqb Bool.eqb spec_denormalize];
    eexists _, _; (split; [reflexivity |]); (split; [reflexivity |]);
    cbn [literal fsub fmul fdiv binary64_ops real_ops].
  - change (Binary64.literal 273.15) with 273.15%float.
    destruct (minus_273_15_error k W Hk HW) as [G1 H1]; [lra |].
    split; [exact G1 |]. apply Rabs_le_inv in H1. apply Rabs_le; lra.
  - change (Binary64.literal 459.67) with 459.67%float.
    change (Binary64.literal 5) with 5%float.
    change (Binary64.literal 9) with 9%float. rewrite L5, L9.
    destruct (times_9_over_5_error k W Hk HW) as [G1 H1]; [lra |].
    apply Rabs_le_inv in H1. set (a1 := (k * 9 / 5)%float) in *.
    destruct (minus_459_67_error a1 (1.801 * W + 1e-300) G1) as [G2 H2];
      [apply Rabs_le; lra | lra |].
    apply Rabs_le_inv in H2.
    split; [exact G2 |]. apply Rabs_le; lra.
  - split; [exact Hk |]. apply Rabs_le; lra.
  - change (Binary64.literal 5) with 5%float.
    change (Binary64.literal 9) with 9%float. rewrite L5, L9.
    destruct (times_9_over_5_error k W Hk HW) as [G2 H2]; [lra |].
    apply Rabs_le_inv in H2.
    split; [exact G2 |]. apply Rabs_le; lra.
Qed.

(** the engine against the formulas read in real numbers *)
Lemma temperature_error
    (pint_convert : pynum float -> string -> string -> option float)
    (v : float) (from_unit to_unit : string) :
  is_finite_float v = true -> (Rabs (B2R v) <= 1e306)%R ->
  In from_unit temperature_units -> In to_unit temperature_units ->
  exists (r : float) (y : R),
    convert_units pint_convert (Num (PyFloat v)) from_unit to_unit
    = Returned (PyFloat r)
    /\ spec_convert from_unit to_unit (B2R v) = Some y
    /\ is_finite_float r = true
    /\ (Rabs (B2R r - y) <= 1e-15 * Rabs (B2R v) + 5e-13)%R.
Proof.
  intros Hv HV Hfrom Hto.
  destruct (convert_units_temperature pint_convert v from_unit to_unit Hfrom)
    as (k & Hk & Hrun).
  destruct (normalize_error from_unit v (Rabs (B2R v)) Hv) as
    (k' & x & Hk' & Hx & Gk & Ek & Mx); [lra | lra | exact Hfrom |].
  rewrite Hk in Hk'. injection Hk' as <-.
  pose proof (Rabs_pos (B2R v)) as HV0.
  apply Rabs_le_inv in Mx.
  pose proof Ek as Ek'. apply Rabs_le_inv in Ek'.
  destruct (denormalize_error to_unit k (1.001 * Rabs (B2R v) + 275) x Gk)
    as (r & y & Hr & Hy & Gr & Er); [apply Rabs_le; lra | lra | exact Hto |].
  exists r, y. rewrite Hrun, Hr. split; [reflexivity |].
  split; [| split; [exact Gr | lra]].
  unfold spec_convert. rewrite Hx. exact Hy.
Qed.

Lemma B2R_100 : B2R 100%float = 100%R.
Proof.
  rewrite (B2R_finite _ false 7036874417766400 (-46)); [| reflexivity | lia].
  cbn [sgn]. change (2 ^ (- -46)) with 70368744177664. lra.
Qed.

(** X7.  For every finite float [v] with [|v| <= 1e306] and all units
    [from_unit], [to_unit] among celsius, fahrenheit, kelvin and rankine,
    [convert_units] returns a finite float whose distance to the value of
    the two formulas in real arithmetic is at most [1e-15 * |v| + 5e-13]. *)
Theorem temperature_conversion_accuracy
    (pint_convert : pynum float -> string -> string -> option float)
    (v : float) (from_unit to_unit : string) :
  is_finite_float v = true -> (Rabs (B2R v) <= 1e306)%R ->
  In from_unit temperature_units -> In to_unit temperature_units ->
  exists (r : float) (y : R),
    convert_units pint_convert (Num (PyFloat v)) from_unit to_unit
    = Returned (PyFloat r)
    /\ spec_convert from_unit to_unit (B2R v) = Some y
    /\ is_finite_float r = true
    /\ (Rabs (B2R r - y) <= 1e-15 * Rabs (B2R v) + 5e-13)%R.
Proof. exact (temperature_error pint_convert v from_unit to_unit). Qed.

Lemma temperature_conversion_accuracy_witness :
  exists (r : float) (y : R),
    convert_units empty_registry (Num (PyFloat 100%float)) "fahrenheit" "rankine"
    = Returned (PyFloat r)
    /\ spec_convert "fahrenheit" "rankine" (B2R 100%float) = Some y
    /\ is_finite_float r = true
    /\ (Rabs (B2R r - y) <= 1e-15 * Rabs (B2R 100%float) + 5e-13)%R.
Proof.
  apply (temperature_conversion_accuracy empty_registry 100%float
           "fahrenheit" "rankine").
  - reflexivity.
  - rewrite B2R_100. apply Rabs_le. lra.
  - cbn. tauto.
  - cbn. tauto.
Defined.

(** X8.  Each formula that the page displays after a temperature
    conversion agrees with what the engine returns: for finite [v] with
    [|v| <= 1e306] the result is within [1e-15 * |v| + 5e-13] of the
    displayed expression read in real arithmetic. *)
Theorem displayed_formulas_match_engine
    (pint_convert : pynum float -> string -> string -> option float)
    (v : float) :
  is_finite_float v = true -> (Rabs (B2R v) <= 1e306)%R ->
  exists cf fc ck kc : float,
    (formula_info "🌡️ Temperature" "celsius" "fahrenheit"
     = Some "Formula: °F = (°C × 9/5) + 32"
     /\ convert_units pint_convert (Num (PyFloat v)) "celsius" "fahrenheit"
        = Returned (PyFloat cf)
     /\ (Rabs (B2R cf - (B2R v * 9 / 5 + 32))
         <= 1e-15 * Rabs (B2R v) + 5e-13)%R)
    /\ (formula_info "🌡️ Temperature" "fahrenheit" "celsius"
        = Some "Formula: °C = (°F - 32) × 5/9"
        /\ convert_units pint_convert (Num (PyFloat v)) "fahrenheit" "celsius"
           = Returned (PyFloat fc)
        /\ (Rabs (B2R fc - (B2R v - 32) * 5 / 9)
            <= 1e-15 * Rabs (B2R v) + 5e-13)%R)
    /\ (formula_info "🌡️ Temperature" "celsius" "kelvin"
        = Some "Formula: K = °C + 273.15"
        /\ convert_units pint_convert (Num (PyFloat v)) "celsius" "kelvin"
           = Returned (PyFloat ck)
        /\ (Rabs (B2R ck - (B2R v + 273.15))
            <= 1e-15 * Rabs (B2R v) + 5e-13)%R)
    /\ (formula_info "🌡️ Temperature" "kelvin" "celsius"
        = Some "Formula: °C = K - 273.15"
        /\ convert_units pint_convert (Num (PyFloat v)) "kelvin" "celsius"
           = Returned (PyFloat kc)
        /\ (Rabs (B2R kc - (B2R v - 273.15))
            <= 1e-15 * Rabs (B2R v) + 5e-13)%R).
Proof.
  intros Hv HV. destruct real_literals as (L5 & L9).
  destruct (temperature_error pint_convert v "celsius" "fahrenheit" Hv HV)
    as (cf & y1 & R1 & S1 & _ & E1); [cbn; tauto | cbn; tauto |].
  destruct (temperature_error pint_convert v "fahrenheit" "celsius" Hv HV)
    as (fc & y2 & R2 & S2 & _ & E2); [cbn; tauto | cbn; tauto |].
  destruct (temperature_error pint_convert v "celsius" "kelvin" Hv HV)
    as (ck & y3 & R3 & S3 & _ & E3); [cbn; tauto | cbn; tauto |].
  destruct (temperature_error pint_convert v "kelvin" "celsius" Hv HV)
    as (kc & y4 & R4 & S4 & _ & E4); [cbn; tauto | cbn; tauto |].
  cbv [spec_convert spec_normalize spec_denormalize String.eqb Ascii.eqb
       Bool.eqb mbind option_bind literal fadd fsub fmul fdiv real_ops]
    in S1, S2, S3, S4.
  rewrite ?L5, ?L9 in S1, S2.
  injection S1 as <-. injection S2 as <-. injection S3 as <-. injection S4 as <-.
  exists cf, fc, ck, kc.
  repeat split; try reflexivity; try assumption.
  - replace (B2R v * 9 / 5 + 32)%R
      with ((B2R v + 273.15) * 9 / 5 - 459.67)%R by lra. exact E1.
  - replace ((B2R v - 32) * 5 / 9)%R
      with ((B2R v + 459.67) * 5 / 9 - 273.15)%R by lra. exact E2.
Qed.

Lemma displayed_formulas_match_engine_witness :
  exists cf : float,
    convert_units empty_registry (Num (PyFloat 100%float)) "celsius" "fahrenheit"
    = Returned (PyFloat cf)
    /\ (Rabs (B2R cf - (B2R 100%float * 9 / 5 + 32))
        <= 1e-15 * Rabs (B2R 100%float) + 5e-13)%R.
Proof.
  destruct (displayed_formulas_match_engine empty_registry 100%float)
    as (cf & fc & ck & kc & (_ & Hrun & Herr) & _).
  - reflexivity.
  - rewrite B2R_100. apply Rabs_le. lra.
  - exists cf. split; [exact Hrun | exact Herr].
Defined.

(** X9.  Converting to the unit a value is already in: kelvin to kelvin
    returns the argument itself, whatever number it is.  For the other
    three units a float goes through two formulas: the result is within
    [1e-15 * |v| + 5e-13] of [v] but need not be [v], as 0.1 celsius
    shows. *)
Theorem same_unit_conversion
    (pint_convert : pynum float -> string -> string -> option float) :
  (forall n : pynum float,
     convert_units pint_convert (Num n) "kelvin" "kelvin" = Returned n)
  /\ (forall (v : float) (unit : string),
        is_finite_float v = true -> (Rabs (B2R v) <= 1e306)%R ->
        In unit temperature_units ->
        exists r : float,
          convert_units pint_convert (Num (PyFloat v)) unit unit
          = Returned (PyFloat r)
          /\ is_finite_float r = true
          /\ (Rabs (B2R r - B2R v) <= 1e-15 * Rabs (B2R v) + 5e-13)%R)
  /\ convert_units pint_convert (Num (PyFloat 0.1%float)) "celsius" "celsius"
     = Returned (PyFloat 0.10000000000002274%float)
  /\ PrimFloat.eqb 0.10000000000002274%float 0.1%float = false.
Proof.
  split; [intros n; reflexivity |]. split.
  - intros v unit Hv HV Hin. destruct real_literals as (L5 & L9).
    destruct (temperature_error pint_convert v unit unit Hv HV Hin Hin)
      as (r & y & Hrun & Hy & Gr & Er).
    exists r. split; [exact Hrun |]. split; [exact Gr |].
    replace (B2R v) with y at 1; [exact Er |].
    apply temperature_units_cases in Hin.
    destruct Hin as [-> | [-> | [-> | ->]]];
      cbv [spec_convert spec_normalize spec_denormalize String.eqb Ascii.eqb
           Bool.eqb mbind option_bind literal fadd fsub fmul fdiv real_ops]
        in Hy;
      rewrite ?L5, ?L9 in Hy; injection Hy as <-; lra.
  - split; [vm_compute; reflexivity | reflexivity].
Qed.

Lemma same_unit_conversion_witness :
  exists r : float,
    convert_units empty_registry (Num (PyFloat 100%float)) "rankine" "rankine"
    = Returned (PyFloat r)
    /\ is_finite_float r = true
    /\ (Rabs (B2R r - B2R 100%float) <= 1e-15 * Rabs (B2R 100%float) + 5e-13)%R.
Proof.
  destruct (same_unit_conversion empty_registry) as (_ & Hnear & _).
  apply (Hnear 100%float "rankine").
  - reflexivity.
  - rewrite B2R_100. apply Rabs_le. lra.
  - cbn. tauto.
Defined.

(** X10.  An int or bool argument in celsius or fahrenheit is converted as
    the float of that int: the call returns what the call on [float(z)]
    returns, and when [float(z)] overflows the outer handler reports it. *)
Theorem int_arguments_convert_as_floats {F : Type} `{PyFloatLaws F}
    (pint_convert : pynum F -> string -> string -> option F)
    (from_unit to_unit : string) :
  from_unit = "celsius" \/ from_unit = "fahrenheit" ->
  (forall z : Z,
     convert_units pint_convert (Num (PyInt z)) from_unit to_unit
     = match of_int z with
       | inr f => convert_units pint_convert (Num (PyFloat f)) from_unit to_unit
       | inl e => Rejected ("Conversion Error: " +:+ str_exc e)
       end)
  /\ (forall b : bool,
        convert_units pint_convert (Num (PyBool b)) from_unit to_unit
        = match of_int (Z.b2z b) with
          | inr f => convert_units pint_convert (Num (PyFloat f)) from_unit to_unit
          | inl e => Rejected ("Conversion Error: " +:+ str_exc e)
          end).
Proof.
  intros Hfrom. split; [intros z | intros b]; unfold convert_units;
    destruct Hfrom as [-> | ->];
    cbn [str_in existsb String.eqb Ascii.eqb Bool.eqb orb];
    cbv [lift2 py_add binop var flt mbind mret exc_bind exc_ret as_int to_float];
    match goal with |- context [of_int ?n] => destruct (of_int n) as [e | f] end;
    reflexivity.
Qed.

Lemma int_arguments_convert_as_floats_witness :
  convert_units (empty_registry (F:=float)) (Num (PyInt 100)) "celsius" "fahrenheit"
  = match of_int 100 with
    | inr f => convert_units empty_registry (Num (PyFloat f)) "celsius" "fahrenheit"
    | inl e => Rejected ("Conversion Error: " +:+ str_exc e)
    end.
Proof.
  destruct (int_arguments_convert_as_floats (F:=float) empty_registry
              "celsius" "fahrenheit" (or_introl eq_refl)) as [Hint _].
  exact (Hint 100).
Defined.
